(** * Graph-classification generators of stellargraph.mapper

    A shallow embedding of [GraphGenerator] (mapper/graph_generator.py) and
    [PaddedGraphGenerator] (mapper/padded_graph_generator.py): the two
    constructors, which validate a list of graph objects, and the two [flow]
    methods, which validate targets (and, in the padded variant, the batch
    size), select graphs by position and hand everything to a sequence
    constructor.

    Python exceptions are modelled by their class; the text of the messages
    is left out, since no branch of the code depends on it. *)

From Stdlib Require Import ZArith Lia.
From stdpp Require Import base option list gmap strings.

Local Open Scope Z_scope.

(** ** Exceptions and the two monads *)

(** The exception classes the two files raise themselves ([TypeError],
    [ValueError]), the ones Python raises for them ([IndexError] on a list
    index out of range, [KeyError] on a missing dict key, [AttributeError]
    on a method the object does not have), and [RuntimeError] as one more
    class a collaborator may raise. *)
Inductive exn : Type :=
| TypeError
| ValueError
| IndexError
| KeyError
| AttributeError
| RuntimeError.

(** A computation that returns a value or raises. *)
Definition res (A : Type) : Type := exn + A.

Definition Ok {A : Type} (x : A) : res A := inr x.
Definition Err {A : Type} (e : exn) : res A := inl e.

#[global] Instance res_ret : MRet res := λ A x, inr x.
#[global] Instance res_bind : MBind res :=
  λ A B f m, match m with inl e => inl e | inr x => f x end.

(** [for x in l: body] where the body may raise. *)
Fixpoint for_ `{MBind M, MRet M} {A : Type} (l : list A) (body : A → M unit)
  : M unit :=
  match l with
  | [] => mret ()
  | x :: l' => body x ;; for_ l' body
  end.

(** ** Python values *)

(** The values that reach the generators as [targets] and [batch_size]:
    [None], booleans, integers, floats (a mantissa and a binary exponent),
    strings and lists; a 2-D target array is a list of rows. *)
#[warnings="-register-all"]
Inductive pyvalue : Type :=
| PyNone
| PyBool (b : bool)
| PyInt (z : Z)
| PyFloat (mantissa exponent : Z)
| PyStr (s : string)
| PyList (items : list pyvalue).

(** [x is not None]. *)
Definition is_not_None (x : pyvalue) : bool :=
  match x with PyNone => false | _ => true end.

(** [len(x)]: defined on strings and lists, a [TypeError] elsewhere. *)
Definition len (x : pyvalue) : res nat :=
  match x with
  | PyStr s => Ok (String.length s)
  | PyList items => Ok (length items)
  | _ => Err TypeError
  end.

(** [isinstance(x, int)]; [bool] is a subclass of [int]. *)
Definition isinstance_int (x : pyvalue) : bool :=
  match x with PyInt _ | PyBool _ => true | _ => false end.

(** [x <= 0] for the values that pass [isinstance(x, int)]; comparing
    anything else with an integer is a [TypeError] here. *)
Definition le_zero (x : pyvalue) : res bool :=
  match x with
  | PyInt z => Ok (z <=? 0)
  | PyBool b => Ok (Z.b2z b <=? 0)
  | _ => Err TypeError
  end.

(** Modelled from the spec: [is_real_iterable] of core/utils.py, which is
    not among the sources. The spec has the targets check reject what is
    "non-iterable/wrong-type": lists (arrays) are real iterables, strings
    are iterable but not accepted, the other values are not iterable. *)
Definition is_real_iterable (x : pyvalue) : bool :=
  match x with PyList _ => true | _ => false end.

(** [l[i]] on a Python list: a negative index counts from the end, and an
    index outside [-len(l), len(l)) raises [IndexError]. *)
Definition list_getitem {A : Type} (l : list A) (i : Z) : res A :=
  let n := Z.of_nat (length l) in
  let j := if i <? 0 then i + n else i in
  if (j <? 0) || (n <=? j) then Err IndexError
  else match l !! Z.to_nat j with
       | Some x => Ok x
       | None => Err IndexError
       end.

(** [d[k]] on a dict. *)
Definition dict_getitem {V : Type} (d : gmap string V) (k : string) : res V :=
  match d !! k with
  | Some v => Ok v
  | None => Err KeyError
  end.

(** ** The graph collaborator *)

(** [StellarGraph] (core/graph.py) is not among the sources. A graph is
    seen through what the two constructors ask of it: the attribute
    [node_types], the dict returned by [node_feature_sizes()], and the
    outcomes of [check_graph_for_ml()] and of
    [node_features(nodes()).shape[1]], each of which returns or raises. *)
Record StellarGraph : Type := {
  node_types : list string;
  node_feature_sizes : gmap string nat;
  check_graph_for_ml : res unit;
  node_features_shape1 : res nat;
}.

(** Modelled from the spec: [StellarGraph.unique_node_type], the
    "single-node-type assertion helper" of the absent graph class. It
    returns the node type of a graph that has exactly one, and fails with a
    value-classified error otherwise. *)
Definition unique_node_type (g : StellarGraph) : res string :=
  match node_types g with
  | [t] => Ok t
  | _ => Err ValueError
  end.

(** An element of the list handed to a constructor: a graph, or any other
    Python value. *)
Inductive pyobject : Type :=
| Graph (g : StellarGraph)
| Other (v : pyvalue).

(** [isinstance(graph, StellarGraph)]. *)
Definition isinstance_StellarGraph (o : pyobject) : bool :=
  match o with Graph _ => true | Other _ => false end.

(** A method or attribute of [StellarGraph] used on an arbitrary object. *)
Definition call {A : Type} (method : StellarGraph → res A) (o : pyobject)
  : res A :=
  match o with
  | Graph g => method g
  | Other _ => Err AttributeError
  end.

(** ** Generator instances and sequence objects *)

(** The attributes both constructors set: [self.graphs],
    [self.node_features_size] ([None] or a number) and [self.name]
    ([None] or a string). *)
Record instance : Type := {
  graphs : list pyobject;
  node_features_size : option nat;
  name : option string;
}.

(** Modelled from the spec: [GraphSequence] of mapper/sequences.py, which
    is not among the sources. The spec has [flow] return "a fully
    configured instance of that sequence type"; the object is the record of
    the keyword arguments the constructor receives. *)
Record GraphSequence : Type := {
  gs_graphs : list pyobject;
  gs_targets : pyvalue;
  gs_batch_size : pyvalue;
  gs_name : option string;
}.

(** Modelled from the spec: [PaddedGraphSequence] of mapper/sequences.py,
    likewise the record of its keyword arguments. *)
Record PaddedGraphSequence : Type := {
  pgs_graphs : list pyobject;
  pgs_targets : pyvalue;
  pgs_symmetric_normalization : bool;
  pgs_batch_size : pyvalue;
  pgs_name : option string;
  pgs_shuffle : bool;
  pgs_seed : option Z;
}.

(** ** Methods: computations over the instance

    A method runs on [self]: it returns or raises, and leaves an instance
    behind in either case. *)
Definition M (A : Type) : Type := instance → res A * instance.

#[global] Instance M_ret : MRet M := λ A x self, (inr x, self).
#[global] Instance M_bind : MBind M :=
  λ A B f m self,
    match m self with
    | (inr x, self') => f x self'
    | (inl e, self') => (inl e, self')
    end.

(** [raise e]. *)
Definition raise {A : Type} (e : exn) : M A := λ self, (inl e, self).

(** A computation that does not look at [self]. *)
Definition lift {A : Type} (r : res A) : M A := λ self, (r, self).

(** [self.graphs]. *)
Definition self_graphs : M (list pyobject) := λ self, (inr (graphs self), self).

(** [[self.graphs[i] for i in graph_ilocs]]. *)
Definition select_graphs (graph_ilocs : list Z) : M (list pyobject) :=
  mapM (λ i, gs ← self_graphs; lift (list_getitem gs i)) graph_ilocs.

Module GraphGenerator.

(** [GraphGenerator.__init__(self, graphs, name=None)],
    graph_generator.py lines 46-70. *)
Definition __init__ (graphs : list pyobject) (name : option string)
  : res instance :=
  for_ graphs (λ graph,
    if negb (isinstance_StellarGraph graph) then Err TypeError
    else mret ()) ;;
  graphs_0 ← list_getitem graphs 0;
  node_features_size ← call node_features_shape1 graphs_0;
  for_ graphs (λ graph, call check_graph_for_ml graph) ;;
  for_ graphs (λ graph,
    types ← call (λ g, Ok (node_types g)) graph;
    if (1 <? length types)%nat then Err ValueError else mret ()) ;;
  mret {| graphs := graphs;
          node_features_size := Some node_features_size;
          name := name |}.

(** [GraphGenerator.flow(self, graph_ilocs, targets=None, batch_size=1,
    name=None)], graph_generator.py lines 72-112. *)
Definition flow (graph_ilocs : list Z) (targets : pyvalue)
    (batch_size : pyvalue) (name : option string) : M GraphSequence :=
  (if is_not_None targets then
     (if negb (is_real_iterable targets) then raise TypeError
      else mret ()) ;;
     n ← lift (len targets);
     if negb (n =? length graph_ilocs)%nat then raise ValueError
     else mret ()
   else mret ()) ;;
  selected ← select_graphs graph_ilocs;
  mret {| gs_graphs := selected;
          gs_targets := targets;
          gs_batch_size := batch_size;
          gs_name := name |}.

End GraphGenerator.

Module PaddedGraphGenerator.

(** The body of the loop of [__init__], padded_graph_generator.py lines
    45-64; [self.node_features_size] is the loop's state. *)
Definition init_step (node_features_size : option nat) (graph : pyobject)
  : res (option nat) :=
  if negb (isinstance_StellarGraph graph) then Err TypeError
  else
    node_type ← call unique_node_type graph;
    call check_graph_for_ml graph ;;
    sizes ← call (λ g, Ok (node_feature_sizes g)) graph;
    f_dim ← dict_getitem sizes node_type;
    match node_features_size with
    | None => mret (Some f_dim)
    | Some d =>
        if negb (d =? f_dim)%nat then Err ValueError else mret (Some d)
    end.

(** [for graph in graphs: ...] threading [self.node_features_size]. *)
Fixpoint init_loop (node_features_size : option nat)
    (graphs : list pyobject) : res (option nat) :=
  match graphs with
  | [] => mret node_features_size
  | graph :: rest =>
      node_features_size' ← init_step node_features_size graph;
      init_loop node_features_size' rest
  end.

(** [PaddedGraphGenerator.__init__(self, graphs, name=None)],
    padded_graph_generator.py lines 41-67. *)
Definition __init__ (graphs : list pyobject) (name : option string)
  : res instance :=
  node_features_size ← init_loop None graphs;
  mret {| graphs := graphs;
          node_features_size := node_features_size;
          name := name |}.

(** [PaddedGraphGenerator.num_batch_dims(self)],
    padded_graph_generator.py lines 69-70. *)
Definition num_batch_dims : M Z := mret 1.

(** [PaddedGraphGenerator.flow(self, graph_ilocs, targets=None,
    symmetric_normalization=True, batch_size=1, name=None, shuffle=False,
    seed=None)], padded_graph_generator.py lines 72-135. *)
Definition flow (graph_ilocs : list Z) (targets : pyvalue)
    (symmetric_normalization : bool) (batch_size : pyvalue)
    (name : option string) (shuffle : bool) (seed : option Z)
  : M PaddedGraphSequence :=
  (if is_not_None targets then
     (if negb (is_real_iterable targets) then raise TypeError
      else mret ()) ;;
     n ← lift (len targets);
     if negb (n =? length graph_ilocs)%nat then raise ValueError
     else mret ()
   else mret ()) ;;
  (if negb (isinstance_int batch_size) then raise TypeError
   else mret ()) ;;
  nonpositive ← lift (le_zero batch_size);
  (if (nonpositive : bool) then raise ValueError else mret ()) ;;
  selected ← select_graphs graph_ilocs;
  mret {| pgs_graphs := selected;
          pgs_targets := targets;
          pgs_symmetric_normalization := symmetric_normalization;
          pgs_batch_size := batch_size;
          pgs_name := name;
          pgs_shuffle := shuffle;
          pgs_seed := seed |}.

End PaddedGraphGenerator.

(** ** Sample data *)

(** A graph with the single node type [t], [d]-dimensional node features
    and nothing for the ML-readiness check to complain about. *)
Definition single_type_graph (t : string) (d : nat) : StellarGraph :=
  {| node_types := [t];
     node_feature_sizes := {[ t := d ]};
     check_graph_for_ml := Ok ();
     node_features_shape1 := Ok d |}.

(** A graph with two node types, both with [d]-dimensional features. Its
    nodes are not of one type, so retrieving the features of all nodes at
    once, as the unpadded constructor does on its first graph, fails with a
    value-classified error. *)
Definition two_type_graph (t1 t2 : string) (d : nat) : StellarGraph :=
  {| node_types := [t1; t2];
     node_feature_sizes := <[ t1 := d ]> {[ t2 := d ]};
     check_graph_for_ml := Ok ();
     node_features_shape1 := Err ValueError |}.

Definition graph_a4 : pyobject := Graph (single_type_graph "a" 4).
Definition graph_b4 : pyobject := Graph (single_type_graph "b" 4).
Definition graph_a5 : pyobject := Graph (single_type_graph "a" 5).
Definition graph_ab : pyobject := Graph (two_type_graph "a" "b" 4).
Definition not_a_graph_x : pyobject := Other (PyStr "x").

(** The instance of the spec's scenario: two single-node-type graphs with
    4-dimensional node features. *)
Definition generator_2x4 : instance :=
  {| graphs := [graph_a4; graph_b4];
     node_features_size := Some 4%nat;
     name := None |}.

(** The targets [[[1.0], [0.0]]] of the spec's scenario. *)
Definition targets_1_0 : pyvalue :=
  PyList [PyList [PyFloat 1 0]; PyList [PyFloat 0 0]].

(** ** Vocabulary of the specification *)

(** A graph object with a single node type and ML-ready node features of
    dimensionality [d]: its one node type has features of size [d], the
    readiness check passes and feature retrieval yields [d] columns. *)
Definition single_type_ml_graph (d : nat) (o : pyobject) : Prop :=
  ∃ g t, o = Graph g
         ∧ node_types g = [t]
         ∧ check_graph_for_ml g = Ok ()
         ∧ node_feature_sizes g !! t = Some d
         ∧ node_features_shape1 g = Ok d.

(** An element that is not a [StellarGraph]. *)
Definition not_a_graph (o : pyobject) : Prop :=
  isinstance_StellarGraph o = false.

(** A graph with more than one node type. *)
Definition multi_type_graph (o : pyobject) : Prop :=
  ∃ g, o = Graph g ∧ (1 < length (node_types g))%nat.

(** A graph that passes the ML-readiness check and whose node features can
    be retrieved, whatever its node types. *)
Definition ml_ready_graph (o : pyobject) : Prop :=
  ∃ g d, o = Graph g
         ∧ check_graph_for_ml g = Ok ()
         ∧ node_features_shape1 g = Ok d.

(** A graph that passes the ML-readiness check. *)
Definition passes_readiness (o : pyobject) : Prop :=
  ∃ g, o = Graph g ∧ check_graph_for_ml g = Ok ().

(** The targets pass the checks of [flow]: they are [None], or a real
    iterable as long as the index list. *)
Definition targets_accepted (targets : pyvalue) (graph_ilocs : list Z) : Prop :=
  targets = PyNone
  ∨ (is_real_iterable targets = true ∧ len targets = Ok (length graph_ilocs)).

(** The integer a value stands for, if it is an [int] (or a [bool]). *)
Definition int_value (x : pyvalue) : option Z :=
  match x with
  | PyInt z => Some z
  | PyBool b => Some (Z.b2z b)
  | _ => None
  end.

(** The batch size is an integer greater than or equal to 1. *)
Definition batch_size_accepted (batch_size : pyvalue) : Prop :=
  ∃ z, int_value batch_size = Some z ∧ 1 ≤ z.

(** A valid position of a Python list [l]: [-len(l) <= i < len(l)]. *)
Definition valid_position {A : Type} (l : list A) (i : Z) : Prop :=
  - Z.of_nat (length l) ≤ i < Z.of_nat (length l).

(** A position outside the range of [l]. *)
Definition out_of_range {A : Type} (l : list A) (i : Z) : Prop :=
  i < - Z.of_nat (length l) ∨ Z.of_nat (length l) ≤ i.

(** The first testable property as the specification words it: on every
    list of single-node-type, ML-ready graphs both constructors succeed and
    record a feature dimensionality. *)
Definition construction_always_succeeds (graphs : list pyobject)
    (name : option string) : Prop :=
  Forall (λ o, ∃ d, single_type_ml_graph d o) graphs →
  (∃ self d, GraphGenerator.__init__ graphs name = Ok self
             ∧ node_features_size self = Some d)
  ∧ (∃ self d, PaddedGraphGenerator.__init__ graphs name = Ok self
               ∧ node_features_size self = Some d).

(** The rejection rule as the specification words it, for a constructor
    [init]: any element that is not a graph makes construction fail with a
    type-classified error, and any graph with more than one node type makes
    it fail with a value-classified error. *)
Definition rejections_as_stated
    (init : list pyobject → option string → res instance)
    (graphs : list pyobject) (name : option string) : Prop :=
  (Exists not_a_graph graphs → init graphs name = Err TypeError)
  ∧ (Exists multi_type_graph graphs → init graphs name = Err ValueError).

(** What the loop of the padded constructor asks of one element, for the
    dimensionality [d]: a graph with exactly one node type that passes the
    readiness check and whose feature sizes give [d] for that type. *)
Definition padded_accepts (d : nat) (o : pyobject) : Prop :=
  ∃ g t, o = Graph g
         ∧ node_types g = [t]
         ∧ check_graph_for_ml g = Ok ()
         ∧ node_feature_sizes g !! t = Some d.

(** What the loops of the unpadded constructor ask of one element: a graph
    that passes the readiness check and has at most one node type. *)
Definition unpadded_accepts (o : pyobject) : Prop :=
  ∃ g, o = Graph g
       ∧ check_graph_for_ml g = Ok ()
       ∧ (length (node_types g) ≤ 1)%nat.

(** [range(len(l))]: every position of [l], in order. *)
Definition all_positions {A : Type} (l : list A) : list Z :=
  Z.of_nat <$> seq 0 (length l).

(** ** Running the monads *)

Lemma for_res_ok {A : Type} (l : list A) (body : A → res unit) :
  Forall (λ x, body x = Ok ()) l → for_ l body = Ok ().
Proof.
  induction 1 as [|x l Hx _ IH]; simpl; [reflexivity|].
  rewrite Hx. simpl. exact IH.
Qed.

Lemma for_res_first_failure {A : Type} (pre post : list A) (x : A)
    (body : A → res unit) (e : exn) :
  Forall (λ y, body y = Ok ()) pre → body x = Err e →
  for_ (pre ++ x :: post) body = Err e.
Proof.
  intros Hpre Hx. induction Hpre as [|y pre Hy _ IH]; simpl.
  - rewrite Hx. reflexivity.
  - rewrite Hy. simpl. exact IH.
Qed.

(** A loop whose body raises at most [e] raises [e] as soon as one element
    makes the body raise. *)
Lemma for_res_exists {A : Type} (l : list A) (body : A → res unit) (e : exn) :
  Forall (λ y, body y = Ok () ∨ body y = Err e) l →
  Exists (λ y, body y = Err e) l →
  for_ l body = Err e.
Proof.
  intros Hall Hex. induction Hall as [|y l Hy _ IH]; simpl.
  - inversion Hex.
  - destruct Hy as [Hy|Hy]; rewrite Hy; simpl; [|reflexivity].
    apply IH. inversion Hex as [? ? Hbad|]; subst; [|assumption].
    rewrite Hy in Hbad. discriminate.
Qed.

(** ** Indexing a Python list *)

Lemma list_getitem_valid {A : Type} (l : list A) (i : Z) :
  valid_position l i → ∃ x, list_getitem l i = Ok x.
Proof.
  unfold valid_position, list_getitem. intros Hi. cbv zeta.
  set (n := Z.of_nat (length l)) in *.
  set (j := if i <? 0 then i + n else i).
  assert (Hj : 0 ≤ j < n) by (subst j; destruct (Z.ltb_spec i 0); lia).
  destruct (Z.ltb_spec j 0); [lia|].
  destruct (Z.leb_spec n j); [lia|]. simpl.
  destruct (l !! Z.to_nat j) as [x|] eqn:Hl; [eauto|].
  apply lookup_ge_None in Hl. lia.
Qed.

Lemma list_getitem_out_of_range {A : Type} (l : list A) (i : Z) :
  out_of_range l i → list_getitem l i = Err IndexError.
Proof.
  unfold out_of_range, list_getitem. intros Hi. cbv zeta.
  set (n := Z.of_nat (length l)) in *.
  assert (0 ≤ n) by (subst n; lia).
  destruct (Z.ltb_spec i 0).
  - destruct (Z.ltb_spec (i + n) 0); [reflexivity|].
    destruct (Z.leb_spec n (i + n)); [reflexivity|lia].
  - destruct (Z.ltb_spec i 0); [lia|].
    destruct (Z.leb_spec n i); [reflexivity|lia].
Qed.

(** Indexing raises nothing but [IndexError]. *)
Lemma list_getitem_raises {A : Type} (l : list A) (i : Z) (e : exn) :
  list_getitem l i = Err e → e = IndexError.
Proof.
  unfold list_getitem. cbv zeta.
  destruct (_ || _); [intros [= <-]; reflexivity|].
  destruct (l !! _); [discriminate|intros [= <-]; reflexivity].
Qed.

(** A position from the front reads the element at that offset. *)
Lemma list_getitem_front {A : Type} (l : list A) (i : Z) (x : A) :
  0 ≤ i → list_getitem l i = Ok x ↔ l !! Z.to_nat i = Some x.
Proof.
  intros Hi. unfold list_getitem. cbv zeta.
  destruct (Z.ltb_spec i 0); [lia|].
  destruct (Z.ltb_spec i 0); [lia|]. simpl.
  destruct (Z.leb_spec (Z.of_nat (length l)) i) as [Hge|Hlt].
  - split; [discriminate|]. intros Hl. apply lookup_lt_Some in Hl. lia.
  - destruct (l !! Z.to_nat i); split; intros [= ->] || discriminate;
      reflexivity.
Qed.

(** A negative position reads from the end. *)
Lemma list_getitem_back {A : Type} (l : list A) (i : Z) (x : A) :
  - Z.of_nat (length l) ≤ i < 0 →
  list_getitem l i = Ok x ↔ l !! Z.to_nat (Z.of_nat (length l) + i) = Some x.
Proof.
  intros Hi. unfold list_getitem. cbv zeta.
  destruct (Z.ltb_spec i 0); [|lia].
  destruct (Z.ltb_spec (i + Z.of_nat (length l)) 0); [lia|].
  destruct (Z.leb_spec (Z.of_nat (length l)) (i + Z.of_nat (length l)));
    [lia|]. simpl.
  replace (Z.of_nat (length l) + i) with (i + Z.of_nat (length l)) by lia.
  destruct (l !! _); split; intros [= ->] || discriminate; reflexivity.
Qed.

Lemma list_getitem_0_cons {A : Type} (x : A) (l : list A) :
  list_getitem (x :: l) 0 = Ok x.
Proof. apply list_getitem_front; [lia|reflexivity]. Qed.

(** The comprehension [[l[i] for i in ilocs]] in the error monad. *)
Lemma mapM_getitem_valid {A : Type} (l : list A) (ilocs : list Z) :
  Forall (valid_position l) ilocs →
  ∃ sel, mapM (list_getitem l) ilocs = Ok sel
         ∧ Forall2 (λ i x, list_getitem l i = Ok x) ilocs sel.
Proof.
  induction 1 as [|i ilocs Hi _ (sel & Hsel & Hall)].
  - exists []. split; [reflexivity|constructor].
  - destruct (list_getitem_valid l i Hi) as [x Hx].
    exists (x :: sel). split; [|constructor; assumption].
    simpl. rewrite Hx. simpl. rewrite Hsel. reflexivity.
Qed.

Lemma mapM_getitem_raises {A : Type} (l : list A) (ilocs : list Z) (e : exn) :
  mapM (list_getitem l) ilocs = Err e → e = IndexError.
Proof.
  revert e. induction ilocs as [|i ilocs IH]; intros e; simpl; [discriminate|].
  destruct (list_getitem l i) eqn:Hi; simpl.
  - intros [= <-]. eapply list_getitem_raises, Hi.
  - destruct (mapM (list_getitem l) ilocs) eqn:Hrest; simpl; [|discriminate].
    intros [= <-]. apply IH. reflexivity.
Qed.

Lemma mapM_getitem_out_of_range {A : Type} (l : list A) (ilocs : list Z) :
  Exists (out_of_range l) ilocs →
  mapM (list_getitem l) ilocs = Err IndexError.
Proof.
  induction 1 as [i ilocs Hi|i ilocs _ IH]; simpl.
  - rewrite (list_getitem_out_of_range l i Hi). reflexivity.
  - destruct (list_getitem l i) eqn:Hi; simpl.
    + apply list_getitem_raises in Hi. subst. reflexivity.
    + rewrite IH. reflexivity.
Qed.

(** The selection step reads [self.graphs] and leaves [self] as it is. *)
Lemma select_graphs_run (graph_ilocs : list Z) (self : instance) :
  select_graphs graph_ilocs self
  = (mapM (list_getitem (graphs self)) graph_ilocs, self).
Proof.
  unfold select_graphs.
  set (f := λ i : Z, gs ← self_graphs; lift (list_getitem gs i)).
  induction graph_ilocs as [|i ilocs IH]; [reflexivity|].
  change (mapM f (i :: ilocs) self)
    with ((f i ≫= λ y, mapM f ilocs ≫= λ k, mret (y :: k)) self).
  change (mapM (list_getitem (graphs self)) (i :: ilocs))
    with (list_getitem (graphs self) i ≫= λ y,
          mapM (list_getitem (graphs self)) ilocs ≫= λ k, mret (y :: k)).
  unfold mbind at 1, M_bind at 1.
  assert (Hf : f i self = (list_getitem (graphs self) i, self)).
  { subst f. cbv beta. unfold mbind, M_bind, self_graphs, lift.
    destruct (list_getitem (graphs self) i); reflexivity. }
  rewrite Hf.
  destruct (list_getitem (graphs self) i) as [e|x]; [reflexivity|].
  unfold mbind at 1, M_bind at 1. rewrite IH.
  destruct (mapM (list_getitem (graphs self)) ilocs); reflexivity.
Qed.

(** ** Running [flow] *)

Ltac unfold_flow :=
  unfold GraphGenerator.flow, PaddedGraphGenerator.flow;
  unfold mbind, M_bind, mret, M_ret, raise, lift; cbv beta.

Ltac run_selection :=
  rewrite ?select_graphs_run;
  try match goal with
      | |- context [mapM (list_getitem ?l) ?ilocs] =>
          destruct (mapM (list_getitem l) ilocs)
      end;
  try reflexivity.

Lemma accepted_list (targets : pyvalue) (graph_ilocs : list Z) :
  is_real_iterable targets = true →
  len targets = Ok (length graph_ilocs) →
  ∃ items, targets = PyList items ∧ length items = length graph_ilocs.
Proof.
  destruct targets; try discriminate. intros _ [= Hlen]. eauto.
Qed.

Lemma unpadded_flow_accepted (graph_ilocs : list Z) (targets batch_size : pyvalue)
    (name : option string) (self : instance) :
  targets_accepted targets graph_ilocs →
  GraphGenerator.flow graph_ilocs targets batch_size name self
  = (match mapM (list_getitem (graphs self)) graph_ilocs with
     | inl e => Err e
     | inr selected => Ok {| gs_graphs := selected; gs_targets := targets;
                             gs_batch_size := batch_size; gs_name := name |}
     end, self).
Proof.
  intros [->|[Hit Hlen]].
  - unfold_flow. simpl. run_selection.
  - destruct (accepted_list _ _ Hit Hlen) as (items & -> & Hitems).
    unfold_flow. simpl. rewrite Hitems, Nat.eqb_refl. simpl. run_selection.
Qed.

Lemma padded_flow_accepted (graph_ilocs : list Z) (targets : pyvalue)
    (symmetric_normalization : bool) (batch_size : pyvalue)
    (name : option string) (shuffle : bool) (seed : option Z)
    (self : instance) :
  targets_accepted targets graph_ilocs →
  PaddedGraphGenerator.flow graph_ilocs targets symmetric_normalization
    batch_size name shuffle seed self
  = (match int_value batch_size with
     | None => Err TypeError
     | Some z =>
         if z <=? 0 then Err ValueError
         else match mapM (list_getitem (graphs self)) graph_ilocs with
              | inl e => Err e
              | inr selected =>
                  Ok {| pgs_graphs := selected; pgs_targets := targets;
                        pgs_symmetric_normalization := symmetric_normalization;
                        pgs_batch_size := batch_size; pgs_name := name;
                        pgs_shuffle := shuffle; pgs_seed := seed |}
              end
     end, self).
Proof.
  intros Hacc.
  assert (Htargets : targets = PyNone
                     ∨ ∃ items, targets = PyList items
                                ∧ length items = length graph_ilocs).
  { destruct Hacc as [->|[Hit Hlen]]; [left; reflexivity|right].
    apply accepted_list; assumption. }
  destruct Htargets as [->|(items & -> & Hitems)];
    unfold_flow; simpl; rewrite ?Hitems, ?Nat.eqb_refl; simpl;
    destruct batch_size as [|b|z| | |]; simpl; try reflexivity;
    match goal with |- context [?x <=? 0] => destruct (x <=? 0) end;
    try reflexivity; run_selection.
Qed.

Lemma flow_not_iterable (graph_ilocs : list Z) (targets batch_size : pyvalue)
    (name : option string) (sym shuffle : bool) (seed : option Z)
    (self : instance) :
  targets ≠ PyNone → is_real_iterable targets = false →
  GraphGenerator.flow graph_ilocs targets batch_size name self
  = (Err TypeError, self)
  ∧ PaddedGraphGenerator.flow graph_ilocs targets sym batch_size name shuffle
      seed self = (Err TypeError, self).
Proof.
  intros Hnone Hit.
  destruct targets; try discriminate; try contradiction; split; reflexivity.
Qed.

Lemma flow_length_mismatch (graph_ilocs : list Z) (targets batch_size : pyvalue)
    (name : option string) (sym shuffle : bool) (seed : option Z)
    (self : instance) (n : nat) :
  is_real_iterable targets = true → len targets = Ok n →
  n ≠ length graph_ilocs →
  GraphGenerator.flow graph_ilocs targets batch_size name self
  = (Err ValueError, self)
  ∧ PaddedGraphGenerator.flow graph_ilocs targets sym batch_size name shuffle
      seed self = (Err ValueError, self).
Proof.
  intros Hit Hlen Hne. destruct targets; try discriminate.
  injection Hlen as Hlen. apply Nat.eqb_neq in Hne. rewrite <- Hlen in Hne.
  split; unfold_flow; simpl; rewrite Hne; reflexivity.
Qed.

(** Targets that do not pass are not [None], and either are no real
    iterable or have another length than the index list. *)
Lemma targets_rejected (targets : pyvalue) (graph_ilocs : list Z) :
  ¬ targets_accepted targets graph_ilocs →
  targets ≠ PyNone
  ∧ (is_real_iterable targets = false
     ∨ (is_real_iterable targets = true
        ∧ ∃ n, len targets = Ok n ∧ n ≠ length graph_ilocs)).
Proof.
  unfold targets_accepted. intros Hrej. split; [tauto|].
  destruct targets; simpl; auto. right. split; [reflexivity|].
  eexists. split; [reflexivity|]. intros Heq. apply Hrej. right.
  simpl. rewrite Heq. split; reflexivity.
Qed.

(** Whatever [flow] is given, it hands [self] back as it found it. *)
Lemma unpadded_flow_frame (graph_ilocs : list Z) (targets batch_size : pyvalue)
    (name : option string) (self : instance) :
  snd (GraphGenerator.flow graph_ilocs targets batch_size name self) = self.
Proof.
  destruct targets as [| | | | |items];
    try (rewrite unpadded_flow_accepted by (left; reflexivity); reflexivity);
    try reflexivity.
  destruct (decide (length items = length graph_ilocs)) as [Heq|Hne].
  - rewrite unpadded_flow_accepted; [reflexivity|].
    right. simpl. rewrite Heq. split; reflexivity.
  - destruct (flow_length_mismatch graph_ilocs (PyList items) batch_size name
                true true None self (length items) eq_refl eq_refl Hne)
      as [-> _].
    reflexivity.
Qed.

Lemma padded_flow_frame (graph_ilocs : list Z) (targets : pyvalue)
    (sym : bool) (batch_size : pyvalue) (name : option string)
    (shuffle : bool) (seed : option Z) (self : instance) :
  snd (PaddedGraphGenerator.flow graph_ilocs targets sym batch_size name
         shuffle seed self) = self.
Proof.
  destruct targets as [| | | | |items];
    try (rewrite padded_flow_accepted by (left; reflexivity); reflexivity);
    try reflexivity.
  destruct (decide (length items = length graph_ilocs)) as [Heq|Hne].
  - rewrite padded_flow_accepted; [reflexivity|].
    right. simpl. rewrite Heq. split; reflexivity.
  - destruct (flow_length_mismatch graph_ilocs (PyList items) batch_size name
                sym shuffle seed self (length items) eq_refl eq_refl Hne)
      as [_ ->].
    reflexivity.
Qed.

(** ** Running the constructors *)

Lemma bind_Ok {A B : Type} (m : res A) (k : A → res B) (y : B) :
  m ≫= k = Ok y → ∃ x, m = Ok x ∧ k x = Ok y.
Proof. destruct m as [e|x]; simpl; [discriminate|eauto]. Qed.

Lemma for_res_fails {A : Type} (l : list A) (body : A → res unit) :
  Exists (λ y, ∃ e, body y = Err e) l → ∃ e, for_ l body = Err e.
Proof.
  induction 1 as [y l [e He]|y l _ [e IH]]; simpl.
  - rewrite He. eauto.
  - destruct (body y) as [e'|[]]; simpl; eauto.
Qed.

Lemma unpadded_init_not_a_graph (graphs : list pyobject) (name : option string) :
  Exists not_a_graph graphs →
  GraphGenerator.__init__ graphs name = Err TypeError.
Proof.
  intros Hex. unfold GraphGenerator.__init__.
  rewrite (for_res_exists graphs
             (λ graph, if negb (isinstance_StellarGraph graph)
                       then Err TypeError else mret ()) TypeError);
    [reflexivity| |].
  - apply Forall_forall. intros [g|v] _; simpl; auto.
  - eapply Exists_impl; [exact Hex|].
    intros [g|v]; unfold not_a_graph; simpl; [discriminate|reflexivity].
Qed.

(** The constructor of the unpadded generator on a non-empty list of graphs
    that pass the readiness check, the first with retrievable features:
    what is left is the test on the node types. *)
Lemma unpadded_init_ready (g0 : StellarGraph) (rest : list pyobject)
    (name : option string) (d0 : nat) :
  node_features_shape1 g0 = Ok d0 →
  Forall ml_ready_graph (Graph g0 :: rest) →
  GraphGenerator.__init__ (Graph g0 :: rest) name
  = (for_ (Graph g0 :: rest) (λ graph,
       types ← call (λ g, Ok (node_types g)) graph;
       if (1 <? length types)%nat then Err ValueError else mret ()) ;;
     mret {| graphs := Graph g0 :: rest;
             node_features_size := Some d0;
             name := name |}).
Proof.
  intros Hd0 Hall. unfold GraphGenerator.__init__.
  rewrite (for_res_ok _ (λ graph, if negb (isinstance_StellarGraph graph)
                                  then Err TypeError else mret ())).
  2:{ eapply Forall_impl; [exact Hall|].
      intros o (g & d & -> & _). reflexivity. }
  change (Ok () ≫= ?k) with (k ()). cbv beta.
  rewrite list_getitem_0_cons.
  change (Ok ?x ≫= ?k) with (k x). cbv beta.
  change (call node_features_shape1 (Graph g0))
    with (node_features_shape1 g0).
  rewrite Hd0.
  change (Ok ?x ≫= ?k) with (k x). cbv beta.
  rewrite (for_res_ok _ (λ graph, call check_graph_for_ml graph)).
  2:{ eapply Forall_impl; [exact Hall|].
      intros o (g & d & -> & Hc & _). exact Hc. }
  reflexivity.
Qed.

Lemma single_type_is_ml_ready (d : nat) (o : pyobject) :
  single_type_ml_graph d o → ml_ready_graph o.
Proof. intros (g & t & -> & _ & Hc & _ & Hf). exists g, d. auto. Qed.

Lemma unpadded_init_single_type (first : pyobject) (rest : list pyobject)
    (name : option string) (d0 : nat) :
  single_type_ml_graph d0 first →
  Forall (λ o, ∃ d, single_type_ml_graph d o) rest →
  GraphGenerator.__init__ (first :: rest) name
  = Ok {| graphs := first :: rest;
          node_features_size := Some d0;
          name := name |}.
Proof.
  intros H0 Hrest.
  assert (Hall : Forall (λ o, ∃ d, single_type_ml_graph d o) (first :: rest))
    by (constructor; eauto).
  destruct H0 as (g0 & t0 & -> & _ & _ & _ & Hf).
  rewrite (unpadded_init_ready g0 rest name d0 Hf).
  - rewrite for_res_ok; [reflexivity|].
    eapply Forall_impl; [exact Hall|].
    intros o (d & g & t & -> & Ht & _). simpl. rewrite Ht. reflexivity.
  - eapply Forall_impl; [exact Hall|].
    intros o [d Ho]. eapply single_type_is_ml_ready, Ho.
Qed.

(** The constructor of the unpadded generator on a non-empty list of graphs
    that pass the readiness check, the first with retrievable features. *)
Lemma unpadded_init_checked (g0 : StellarGraph) (rest : list pyobject)
    (name0 : option string) (d0 : nat) :
  node_features_shape1 g0 = Ok d0 →
  Forall passes_readiness (Graph g0 :: rest) →
  GraphGenerator.__init__ (Graph g0 :: rest) name0
  = (for_ (Graph g0 :: rest) (λ graph,
       types ← call (λ g, Ok (node_types g)) graph;
       if (1 <? length types)%nat then Err ValueError else mret ()) ;;
     mret {| graphs := Graph g0 :: rest;
             node_features_size := Some d0;
             name := name0 |}).
Proof.
  intros Hd0 Hall. unfold GraphGenerator.__init__.
  rewrite (for_res_ok _ (λ graph, if negb (isinstance_StellarGraph graph)
                                  then Err TypeError else mret ())).
  2:{ eapply Forall_impl; [exact Hall|].
      intros o (g & -> & _). reflexivity. }
  change (Ok () ≫= ?k) with (k ()). cbv beta.
  rewrite list_getitem_0_cons.
  change (Ok ?x ≫= ?k) with (k x). cbv beta.
  change (call node_features_shape1 (Graph g0))
    with (node_features_shape1 g0).
  rewrite Hd0.
  change (Ok ?x ≫= ?k) with (k x). cbv beta.
  rewrite (for_res_ok _ (λ graph, call check_graph_for_ml graph)).
  2:{ eapply Forall_impl; [exact Hall|].
      intros o (g & -> & Hc). exact Hc. }
  reflexivity.
Qed.

Lemma unpadded_init_multi_type_checked (g0 : StellarGraph)
    (rest : list pyobject) (name0 : option string) (d0 : nat) :
  node_features_shape1 g0 = Ok d0 →
  Forall passes_readiness (Graph g0 :: rest) →
  Exists multi_type_graph (Graph g0 :: rest) →
  GraphGenerator.__init__ (Graph g0 :: rest) name0 = Err ValueError.
Proof.
  intros Hd0 Hall Hex.
  rewrite (unpadded_init_checked g0 rest name0 d0 Hd0 Hall).
  rewrite (for_res_exists _ _ ValueError); [reflexivity| |].
  - eapply Forall_impl; [exact Hall|].
    intros o (g & -> & _). simpl.
    destruct (1 <? length (node_types g))%nat; auto.
  - eapply Exists_impl; [exact Hex|].
    intros o (g & -> & Hlen). simpl.
    apply Nat.ltb_lt in Hlen. rewrite Hlen. reflexivity.
Qed.

(** On a list of graphs, an error of the feature retrieval on the first
    graph is the error of the constructor. *)
Lemma unpadded_init_retrieval_fails (g0 : StellarGraph) (rest : list pyobject)
    (name0 : option string) (e : exn) :
  Forall (λ o, isinstance_StellarGraph o = true) rest →
  node_features_shape1 g0 = Err e →
  GraphGenerator.__init__ (Graph g0 :: rest) name0 = Err e.
Proof.
  intros Hall He. unfold GraphGenerator.__init__.
  rewrite (for_res_ok _ (λ graph, if negb (isinstance_StellarGraph graph)
                                  then Err TypeError else mret ())).
  2:{ constructor; [reflexivity|].
      eapply Forall_impl; [exact Hall|]. intros o ->. reflexivity. }
  change (Ok () ≫= ?k) with (k ()). cbv beta.
  rewrite list_getitem_0_cons.
  change (Ok ?x ≫= ?k) with (k x). cbv beta.
  change (call node_features_shape1 (Graph g0))
    with (node_features_shape1 g0).
  rewrite He. reflexivity.
Qed.

Lemma unpadded_init_multi_type (graphs : list pyobject) (name : option string) :
  Forall ml_ready_graph graphs → Exists multi_type_graph graphs →
  GraphGenerator.__init__ graphs name = Err ValueError.
Proof.
  intros Hall Hex. destruct graphs as [|o0 rest]; [inversion Hex|].
  assert (H0 : ml_ready_graph o0) by (inversion Hall; assumption).
  destruct H0 as (g0 & d0 & -> & _ & Hd0).
  rewrite (unpadded_init_ready g0 rest name d0 Hd0 Hall).
  rewrite (for_res_exists _ _ ValueError); [reflexivity| |].
  - eapply Forall_impl; [exact Hall|].
    intros o (g & d & -> & _). simpl.
    destruct (1 <? length (node_types g))%nat; auto.
  - eapply Exists_impl; [exact Hex|].
    intros o (g & -> & Hlen). simpl.
    apply Nat.ltb_lt in Hlen. rewrite Hlen. reflexivity.
Qed.

(** A list holding a graph with several node types never gets through the
    constructor of the unpadded generator. *)
Lemma unpadded_init_multi_type_fails (graphs : list pyobject)
    (name : option string) :
  Exists multi_type_graph graphs →
  ∃ e, GraphGenerator.__init__ graphs name = Err e.
Proof.
  intros Hex.
  destruct (GraphGenerator.__init__ graphs name) as [e|self] eqn:Hinit;
    [eauto|].
  exfalso. unfold GraphGenerator.__init__ in Hinit.
  apply bind_Ok in Hinit as ([] & _ & Hinit).
  apply bind_Ok in Hinit as (o0 & _ & Hinit).
  apply bind_Ok in Hinit as (d0 & _ & Hinit).
  apply bind_Ok in Hinit as ([] & _ & Hinit).
  apply bind_Ok in Hinit as ([] & Hloop & _).
  destruct (for_res_fails graphs (λ graph,
              types ← call (λ g, Ok (node_types g)) graph;
              if (1 <? length types)%nat then Err ValueError else mret ()))
    as [e He]; [|rewrite He in Hloop; discriminate].
  eapply Exists_impl; [exact Hex|].
  intros o (g & -> & Hlen). simpl.
  apply Nat.ltb_lt in Hlen. rewrite Hlen. eauto.
Qed.

Lemma init_step_single_type (acc : option nat) (o : pyobject) (d : nat) :
  single_type_ml_graph d o → acc = None ∨ acc = Some d →
  PaddedGraphGenerator.init_step acc o = Ok (Some d).
Proof.
  intros (g & t & -> & Ht & Hc & Hs & _) Hacc.
  unfold PaddedGraphGenerator.init_step. simpl.
  unfold unique_node_type, dict_getitem. rewrite Ht. simpl.
  rewrite Hc. simpl. rewrite Hs. simpl.
  destruct Hacc as [->| ->]; [reflexivity|].
  rewrite Nat.eqb_refl. reflexivity.
Qed.

Lemma init_step_mismatch (o : pyobject) (d d' : nat) :
  single_type_ml_graph d' o → d ≠ d' →
  PaddedGraphGenerator.init_step (Some d) o = Err ValueError.
Proof.
  intros (g & t & -> & Ht & Hc & Hs & _) Hne.
  unfold PaddedGraphGenerator.init_step. simpl.
  unfold unique_node_type, dict_getitem. rewrite Ht. simpl.
  rewrite Hc. simpl. rewrite Hs. simpl.
  apply Nat.eqb_neq in Hne. rewrite Hne. reflexivity.
Qed.

Lemma init_step_not_a_graph (acc : option nat) (o : pyobject) :
  not_a_graph o → PaddedGraphGenerator.init_step acc o = Err TypeError.
Proof.
  unfold not_a_graph, PaddedGraphGenerator.init_step. intros ->. reflexivity.
Qed.

Lemma init_step_multi_type (acc : option nat) (o : pyobject) :
  multi_type_graph o → PaddedGraphGenerator.init_step acc o = Err ValueError.
Proof.
  intros (g & -> & Hlen). unfold PaddedGraphGenerator.init_step. simpl.
  unfold unique_node_type.
  destruct (node_types g) as [|t1 [|t2 types]]; simpl in *;
    [reflexivity|lia|reflexivity].
Qed.

Lemma init_loop_single_type (acc : option nat) (l : list pyobject) (d : nat) :
  Forall (single_type_ml_graph d) l → acc = None ∨ acc = Some d →
  ∃ acc', PaddedGraphGenerator.init_loop acc l = Ok acc'
          ∧ (acc' = None ∨ acc' = Some d)
          ∧ (l ≠ [] → acc' = Some d).
Proof.
  intros Hall. revert acc.
  induction Hall as [|o l Ho _ IH]; intros acc Hacc.
  - exists acc. split; [reflexivity|]. split; [assumption|congruence].
  - simpl. rewrite (init_step_single_type acc o d Ho Hacc).
    change (Ok ?x ≫= ?k) with (k x). cbv beta.
    destruct (IH (Some d)) as (acc' & Hloop & Hacc' & Hne); [auto|].
    exists acc'. split; [exact Hloop|]. split; [exact Hacc'|].
    intros _. destruct l as [|o' l'].
    + simpl in Hloop. injection Hloop as <-. reflexivity.
    + apply Hne. discriminate.
Qed.

Lemma init_loop_app (acc : option nat) (pre l : list pyobject) :
  PaddedGraphGenerator.init_loop acc (pre ++ l)
  = acc' ← PaddedGraphGenerator.init_loop acc pre;
    PaddedGraphGenerator.init_loop acc' l.
Proof.
  revert acc. induction pre as [|o pre IH]; intros acc; simpl; [reflexivity|].
  destruct (PaddedGraphGenerator.init_step acc o) as [e|acc1]; simpl;
    [reflexivity|apply IH].
Qed.

(** The loop stops at the first element that makes the step raise,
    whatever dimensionality has been recorded so far. *)
Lemma init_loop_first_failure (pre post : list pyobject) (o : pyobject)
    (d : nat) (e : exn) :
  Forall (single_type_ml_graph d) pre →
  (∀ acc, acc = None ∨ acc = Some d →
          PaddedGraphGenerator.init_step acc o = Err e) →
  PaddedGraphGenerator.init_loop None (pre ++ o :: post) = Err e.
Proof.
  intros Hpre Hstep. rewrite init_loop_app.
  destruct (init_loop_single_type None pre d Hpre) as (acc' & -> & Hacc' & _);
    [auto|].
  change (Ok ?x ≫= ?k) with (k x). cbv beta. simpl.
  rewrite (Hstep acc' Hacc'). reflexivity.
Qed.

Lemma init_loop_fails (l : list pyobject) (acc : option nat) :
  Exists (λ o, ∀ acc', ∃ e, PaddedGraphGenerator.init_step acc' o = Err e) l →
  ∃ e, PaddedGraphGenerator.init_loop acc l = Err e.
Proof.
  intros Hex. revert acc.
  induction Hex as [o l Ho|o l _ IH]; intros acc; simpl.
  - destruct (Ho acc) as [e ->]. simpl. eauto.
  - destruct (PaddedGraphGenerator.init_step acc o) as [e|acc1]; simpl;
      [eauto|apply IH].
Qed.

Lemma padded_init_of_loop (graphs : list pyobject) (name : option string)
    (r : res (option nat)) :
  PaddedGraphGenerator.init_loop None graphs = r →
  PaddedGraphGenerator.__init__ graphs name
  = match r with
    | inl e => Err e
    | inr nfs => Ok {| graphs := graphs; node_features_size := nfs;
                       name := name |}
    end.
Proof.
  intros <-. unfold PaddedGraphGenerator.__init__.
  destruct (PaddedGraphGenerator.init_loop None graphs); reflexivity.
Qed.

Lemma padded_init_single_type (graphs : list pyobject) (name : option string)
    (d : nat) :
  graphs ≠ [] → Forall (single_type_ml_graph d) graphs →
  PaddedGraphGenerator.__init__ graphs name
  = Ok {| graphs := graphs; node_features_size := Some d; name := name |}.
Proof.
  intros Hne Hall.
  destruct (init_loop_single_type None graphs d Hall) as (acc & Hloop & _ & Hd);
    [auto|].
  rewrite (padded_init_of_loop graphs name _ Hloop), (Hd Hne). reflexivity.
Qed.

(** ** The sample data at work *)

Lemma single_type_graph_ok (t : string) (d : nat) :
  single_type_ml_graph d (Graph (single_type_graph t d)).
Proof.
  exists (single_type_graph t d), t. simpl.
  rewrite lookup_singleton_eq. auto.
Qed.

Lemma targets_accepted_dec (targets : pyvalue) (graph_ilocs : list Z) :
  targets_accepted targets graph_ilocs ∨ ¬ targets_accepted targets graph_ilocs.
Proof.
  unfold targets_accepted.
  destruct targets as [| | | | |items]; simpl;
    try (left; left; reflexivity);
    try (right; intros [?|[? ?]]; discriminate).
  destruct (decide (length items = length graph_ilocs)) as [->|Hne].
  - left. right. split; reflexivity.
  - right. intros [?|[_ [= ?]]]; [discriminate|contradiction].
Qed.

Example init_scenario :
  GraphGenerator.__init__ [graph_a4; graph_b4] None = Ok generator_2x4
  ∧ PaddedGraphGenerator.__init__ [graph_a4; graph_b4] None = Ok generator_2x4.
Proof. split; vm_compute; reflexivity. Qed.

Example flow_scenario :
  GraphGenerator.flow [0; 1] targets_1_0 (PyInt 1) None generator_2x4
  = (Ok {| gs_graphs := [graph_a4; graph_b4]; gs_targets := targets_1_0;
           gs_batch_size := PyInt 1; gs_name := None |}, generator_2x4).
Proof. vm_compute. reflexivity. Qed.

Example flow_negative_index :
  fst (GraphGenerator.flow [-1; -2; 1] PyNone (PyInt 1) None generator_2x4)
  = Ok {| gs_graphs := [graph_b4; graph_a4; graph_b4]; gs_targets := PyNone;
          gs_batch_size := PyInt 1; gs_name := None |}.
Proof. vm_compute. reflexivity. Qed.

Example padded_flow_True_batch :
  ∃ seq, PaddedGraphGenerator.flow [0] PyNone true (PyBool true) None false None
           generator_2x4 = (Ok seq, generator_2x4).
Proof. eexists. vm_compute. reflexivity. Qed.

(** ** Construction *)

(** C1 (as worded, refuted). The property "on every list of
    single-node-type, ML-ready graphs both constructors succeed and record
    a feature dimensionality" fails on two graphs of feature
    dimensionalities 4 and 5, which the padded constructor rejects, and on
    the empty list, on which no dimensionality is recorded. *)
Lemma C1_construction_can_fail :
  ¬ construction_always_succeeds [graph_a4; graph_a5] None
  ∧ ¬ construction_always_succeeds [] None.
Proof.
  split; intros Hclaim.
  - destruct Hclaim as [_ (self & d & Hinit & _)].
    + repeat constructor; eexists; apply single_type_graph_ok.
    + vm_compute in Hinit. discriminate.
  - destruct Hclaim as [(self & d & Hinit & _) _].
    + constructor.
    + vm_compute in Hinit. discriminate.
Qed.

(** C1 (amended). On every non-empty list of graphs that each have a
    single node type and ML-ready node features, the constructor of
    [GraphGenerator] succeeds and records the feature dimensionality of the
    first graph; the constructor of [PaddedGraphGenerator] succeeds and
    records that dimensionality when, in addition, all graphs share it. *)
Theorem C1_construction_succeeds (first : pyobject) (rest : list pyobject)
    (name : option string) (d : nat) :
  single_type_ml_graph d first →
  Forall (λ o, ∃ d', single_type_ml_graph d' o) rest →
  GraphGenerator.__init__ (first :: rest) name
  = Ok {| graphs := first :: rest; node_features_size := Some d;
          name := name |}
  ∧ (Forall (single_type_ml_graph d) rest →
     PaddedGraphGenerator.__init__ (first :: rest) name
     = Ok {| graphs := first :: rest; node_features_size := Some d;
             name := name |}).
Proof.
  intros Hfirst Hrest. split.
  - apply unpadded_init_single_type; assumption.
  - intros Hsame. apply padded_init_single_type; [discriminate|].
    constructor; assumption.
Qed.

Lemma C1_construction_succeeds_witness :
  GraphGenerator.__init__ [graph_a4; graph_b4] None = Ok generator_2x4
  ∧ PaddedGraphGenerator.__init__ [graph_a4; graph_b4] None
    = Ok generator_2x4.
Proof.
  destruct (C1_construction_succeeds graph_a4 [graph_b4] None 4%nat)
    as [Hunpadded Hpadded].
  - apply single_type_graph_ok.
  - repeat constructor. exists 4%nat. apply single_type_graph_ok.
  - split; [exact Hunpadded|]. apply Hpadded.
    repeat constructor. apply single_type_graph_ok.
Defined.

(** C3. With two graphs of differing node feature dimensionality, each
    with a single node type and ML-ready features, the constructor of
    [PaddedGraphGenerator] fails with a [ValueError], while the constructor
    of [GraphGenerator] succeeds and records the dimensionality of the
    first graph. *)
Theorem C3_dimensionality_cross_check (o1 o2 : pyobject)
    (name : option string) (d1 d2 : nat) :
  single_type_ml_graph d1 o1 → single_type_ml_graph d2 o2 → d1 ≠ d2 →
  PaddedGraphGenerator.__init__ [o1; o2] name = Err ValueError
  ∧ GraphGenerator.__init__ [o1; o2] name
    = Ok {| graphs := [o1; o2]; node_features_size := Some d1;
            name := name |}.
Proof.
  intros H1 H2 Hne. split.
  - rewrite (padded_init_of_loop _ _ (Err ValueError)); [reflexivity|].
    simpl. rewrite (init_step_single_type None o1 d1 H1) by auto.
    change (Ok ?x ≫= ?k) with (k x). cbv beta.
    rewrite (init_step_mismatch o2 d1 d2 H2 Hne). reflexivity.
  - apply unpadded_init_single_type; [exact H1|].
    repeat constructor. exists d2. exact H2.
Qed.

Lemma C3_dimensionality_cross_check_witness :
  PaddedGraphGenerator.__init__ [graph_a4; graph_a5] None = Err ValueError
  ∧ GraphGenerator.__init__ [graph_a4; graph_a5] None
    = Ok {| graphs := [graph_a4; graph_a5]; node_features_size := Some 4%nat;
            name := None |}.
Proof.
  apply (C3_dimensionality_cross_check graph_a4 graph_a5 None 4%nat 5%nat).
  - apply single_type_graph_ok.
  - apply single_type_graph_ok.
  - lia.
Defined.

(** The unpadded constructor, which checks the types of all elements
    first, does follow the rule as worded on the list that the padded
    constructor breaks it on. *)
Lemma unpadded_follows_rule_on_sample :
  rejections_as_stated GraphGenerator.__init__
    [graph_a4; graph_a5; not_a_graph_x] None.
Proof.
  split.
  - apply unpadded_init_not_a_graph.
  - intros Hmulti. exfalso.
    repeat (apply Exists_cons in Hmulti as [(g & Hg & Hlen)|Hmulti];
            [try discriminate; injection Hg as <-; simpl in Hlen; lia|]).
    inversion Hmulti.
Qed.

(** C4 (as worded, refuted). In the padded constructor a non-graph element
    does not always give a [TypeError]. The constructor stops at the first
    element it cannot accept: on two single-node-type graphs of
    dimensionalities 4 and 5 followed by a string, it raises the
    [ValueError] of the dimensionality guard before it reaches the
    string. *)
Lemma C4_rejection_depends_on_order :
  ¬ rejections_as_stated PaddedGraphGenerator.__init__
      [graph_a4; graph_a5; not_a_graph_x] None.
Proof.
  intros [Htype _].
  assert (Hex : Exists not_a_graph [graph_a4; graph_a5; not_a_graph_x]).
  { apply Exists_cons_tl, Exists_cons_tl, Exists_cons_hd. reflexivity. }
  specialize (Htype Hex). vm_compute in Htype. discriminate.
Qed.

(** C4 (amended). [GraphGenerator]: a list with an element that is not a
    [StellarGraph] is rejected with a [TypeError]; a list of graphs that
    pass the readiness check, the first of which has retrievable features
    and one of which has more than one node type, is rejected with a
    [ValueError]; on a list of graphs whose first graph has no retrievable
    features, the error of the retrieval is raised.
    [PaddedGraphGenerator] checks the elements in list order: after a
    prefix of single-node-type, ML-ready graphs of one dimensionality, an
    element that is not a [StellarGraph] gives a [TypeError] and a graph
    with more than one node type gives a [ValueError]. Either constructor
    fails on every list that holds such an element. *)
Theorem C4_constructor_rejections :
  (∀ graphs name,
     Exists not_a_graph graphs →
     GraphGenerator.__init__ graphs name = Err TypeError)
  ∧ (∀ g0 rest name d,
       node_features_shape1 g0 = Ok d →
       Forall passes_readiness (Graph g0 :: rest) →
       Exists multi_type_graph (Graph g0 :: rest) →
       GraphGenerator.__init__ (Graph g0 :: rest) name = Err ValueError)
  ∧ (∀ g0 rest name e,
       Forall (λ o, isinstance_StellarGraph o = true) rest →
       node_features_shape1 g0 = Err e →
       GraphGenerator.__init__ (Graph g0 :: rest) name = Err e)
  ∧ (∀ pre o post name d,
       Forall (single_type_ml_graph d) pre →
       (not_a_graph o →
        PaddedGraphGenerator.__init__ (pre ++ o :: post) name = Err TypeError)
       ∧ (multi_type_graph o →
          PaddedGraphGenerator.__init__ (pre ++ o :: post) name
          = Err ValueError))
  ∧ (∀ graphs name,
       Exists not_a_graph graphs ∨ Exists multi_type_graph graphs →
       (∃ e, GraphGenerator.__init__ graphs name = Err e)
       ∧ (∃ e, PaddedGraphGenerator.__init__ graphs name = Err e)).
Proof.
  split; [exact unpadded_init_not_a_graph|].
  split; [exact unpadded_init_multi_type_checked|].
  split; [exact unpadded_init_retrieval_fails|].
  split.
  - intros pre o post name d Hpre. split; intros Ho.
    + rewrite (padded_init_of_loop _ _ (Err TypeError)); [reflexivity|].
      apply (init_loop_first_failure pre post o d); [exact Hpre|].
      intros acc _. apply init_step_not_a_graph, Ho.
    + rewrite (padded_init_of_loop _ _ (Err ValueError)); [reflexivity|].
      apply (init_loop_first_failure pre post o d); [exact Hpre|].
      intros acc _. apply init_step_multi_type, Ho.
  - intros graphs name Hbad. split.
    + destruct Hbad as [Hex|Hex].
      * exists TypeError. apply unpadded_init_not_a_graph, Hex.
      * apply unpadded_init_multi_type_fails, Hex.
    + destruct (init_loop_fails graphs None) as [e He].
      { destruct Hbad as [Hex|Hex]; (eapply Exists_impl; [exact Hex|]);
          intros o Ho acc.
        - exists TypeError. apply init_step_not_a_graph, Ho.
        - exists ValueError. apply init_step_multi_type, Ho. }
      exists e. rewrite (padded_init_of_loop _ _ _ He). reflexivity.
Qed.

Lemma C4_constructor_rejections_witness :
  GraphGenerator.__init__ [graph_a4; not_a_graph_x] None = Err TypeError
  ∧ GraphGenerator.__init__ [graph_a4; graph_ab] None = Err ValueError
  ∧ GraphGenerator.__init__ [graph_ab; graph_a4] None = Err ValueError
  ∧ PaddedGraphGenerator.__init__ [graph_a4; not_a_graph_x; graph_ab] None
    = Err TypeError
  ∧ PaddedGraphGenerator.__init__ [graph_a4; graph_ab; not_a_graph_x] None
    = Err ValueError.
Proof.
  destruct C4_constructor_rejections
    as (Hu_type & Hu_value & Hu_retrieval & Hpadded & _).
  split; [|split; [|split; [|split]]].
  - apply Hu_type. apply Exists_cons_tl, Exists_cons_hd. reflexivity.
  - apply (Hu_value (single_type_graph "a" 4) [graph_ab] None 4%nat).
    + reflexivity.
    + repeat constructor.
      * exists (single_type_graph "a" 4). auto.
      * exists (two_type_graph "a" "b" 4). auto.
    + apply Exists_cons_tl, Exists_cons_hd.
      exists (two_type_graph "a" "b" 4). split; [reflexivity|simpl; lia].
  - apply (Hu_retrieval (two_type_graph "a" "b" 4) [graph_a4] None ValueError).
    + repeat constructor.
    + reflexivity.
  - apply (Hpadded [graph_a4] not_a_graph_x [graph_ab] None 4%nat).
    + repeat constructor. apply single_type_graph_ok.
    + reflexivity.
  - apply (Hpadded [graph_a4] graph_ab [not_a_graph_x] None 4%nat).
    + repeat constructor. apply single_type_graph_ok.
    + exists (two_type_graph "a" "b" 4). split; [reflexivity|simpl; lia].
Defined.

(** C9. On the empty list the constructor of [GraphGenerator] fails with an
    [IndexError], raised by the read of [graphs[0]], while the constructor
    of [PaddedGraphGenerator] succeeds and leaves [node_features_size] at
    [None]. *)
Theorem C9_empty_graph_list (name : option string) :
  GraphGenerator.__init__ [] name = Err IndexError
  ∧ PaddedGraphGenerator.__init__ [] name
    = Ok {| graphs := []; node_features_size := None; name := name |}.
Proof. split; reflexivity. Qed.

(** ** Flow *)

Lemma position_valid_or_not {A : Type} (l : list A) (i : Z) :
  valid_position l i ∨ out_of_range l i.
Proof. unfold valid_position, out_of_range. lia. Qed.

Lemma mapM_getitem_raises_at {A : Type} (l : list A) (ilocs : list Z)
    (e : exn) :
  mapM (list_getitem l) ilocs = Err e → Exists (out_of_range l) ilocs.
Proof.
  revert e. induction ilocs as [|i ilocs IH]; intros e; simpl; [discriminate|].
  destruct (position_valid_or_not l i) as [Hi|Hi]; [|intros _; left; exact Hi].
  destruct (list_getitem_valid l i Hi) as [x ->]. simpl.
  destruct (mapM (list_getitem l) ilocs) eqn:Hrest; simpl; [|discriminate].
  intros _. right. eapply IH. reflexivity.
Qed.

Lemma int_value_not_int (x : pyvalue) :
  isinstance_int x = false ↔ int_value x = None.
Proof. destruct x; simpl; split; congruence. Qed.

Lemma batch_size_rejected (batch_size : pyvalue) :
  ¬ batch_size_accepted batch_size →
  int_value batch_size = None
  ∨ ∃ z, int_value batch_size = Some z ∧ z ≤ 0.
Proof.
  intros Hrej. destruct (int_value batch_size) as [z|] eqn:Hz; [|auto].
  right. exists z. split; [reflexivity|].
  destruct (Z.le_gt_cases z 0); [assumption|].
  exfalso. apply Hrej. exists z. split; [assumption|lia].
Qed.

(** With accepted targets, the padded [flow] depends on the batch size and
    the positions only. *)
Lemma padded_flow_bad_batch (graph_ilocs : list Z) (targets : pyvalue)
    (sym : bool) (batch_size : pyvalue) (name : option string)
    (shuffle : bool) (seed : option Z) (self : instance) :
  targets_accepted targets graph_ilocs →
  (int_value batch_size = None →
   PaddedGraphGenerator.flow graph_ilocs targets sym batch_size name shuffle
     seed self = (Err TypeError, self))
  ∧ (∀ z, int_value batch_size = Some z → z ≤ 0 →
     PaddedGraphGenerator.flow graph_ilocs targets sym batch_size name shuffle
       seed self = (Err ValueError, self)).
Proof.
  intros Hacc. rewrite padded_flow_accepted by exact Hacc. split.
  - intros ->. reflexivity.
  - intros z -> Hz. apply Z.leb_le in Hz. rewrite Hz. reflexivity.
Qed.

Lemma padded_flow_good_batch (graph_ilocs : list Z) (targets : pyvalue)
    (sym : bool) (batch_size : pyvalue) (name : option string)
    (shuffle : bool) (seed : option Z) (self : instance) :
  targets_accepted targets graph_ilocs → batch_size_accepted batch_size →
  PaddedGraphGenerator.flow graph_ilocs targets sym batch_size name shuffle
    seed self
  = (match mapM (list_getitem (graphs self)) graph_ilocs with
     | inl e => Err e
     | inr selected =>
         Ok {| pgs_graphs := selected; pgs_targets := targets;
               pgs_symmetric_normalization := sym;
               pgs_batch_size := batch_size; pgs_name := name;
               pgs_shuffle := shuffle; pgs_seed := seed |}
     end, self).
Proof.
  intros Hacc (z & Hz & Hpos). rewrite padded_flow_accepted by exact Hacc.
  rewrite Hz. destruct (Z.leb_spec z 0); [lia|reflexivity].
Qed.

(** The selected graphs, position by position. *)
Lemma selection_pointwise {A : Type} (l : list A) (ilocs : list Z)
    (sel : list A) :
  Forall2 (λ i x, list_getitem l i = Ok x) ilocs sel →
  length sel = length ilocs
  ∧ ∀ (k : nat) (i : Z), ilocs !! k = Some i →
      ∃ x, sel !! k = Some x ∧ list_getitem l i = Ok x.
Proof.
  intros Hall. split; [symmetry; eapply Forall2_length, Hall|].
  intros k i Hk.
  destruct (Forall2_lookup_l _ _ _ _ _ Hall Hk) as (x & Hx & Hget). eauto.
Qed.

(** C2 (the code at the failing input). [GraphGenerator.flow] does not look
    at the batch size: whatever it is given, 0, -1 and non-integers
    included, it returns a sequence that carries the value as it came,
    where [PaddedGraphGenerator.flow] raises a [ValueError] or a
    [TypeError]. *)
Theorem C2_unpadded_flow_forwards_batch_size :
  (∀ batch_size,
     GraphGenerator.flow [0; 1] PyNone batch_size None generator_2x4
     = (Ok {| gs_graphs := [graph_a4; graph_b4]; gs_targets := PyNone;
              gs_batch_size := batch_size; gs_name := None |}, generator_2x4))
  ∧ PaddedGraphGenerator.flow [0; 1] PyNone true (PyInt 0) None false None
      generator_2x4 = (Err ValueError, generator_2x4)
  ∧ PaddedGraphGenerator.flow [0; 1] PyNone true (PyInt (-1)) None false None
      generator_2x4 = (Err ValueError, generator_2x4)
  ∧ PaddedGraphGenerator.flow [0; 1] PyNone true (PyStr "many") None false
      None generator_2x4 = (Err TypeError, generator_2x4).
Proof.
  split; [|repeat split; reflexivity].
  intros batch_size. rewrite unpadded_flow_accepted by (left; reflexivity).
  reflexivity.
Qed.

(** C5. [PaddedGraphGenerator.flow] given a batch size that is not an
    integer of at least 1 fails, with a [TypeError] or a [ValueError],
    whatever the other arguments. When the targets pass their checks, which
    come first, the error is a [TypeError] for a non-integer and a
    [ValueError] for an integer at most 0 (0 and -1 among them); and with an
    integer of at least 1 and valid positions [flow] succeeds. *)
Theorem C5_padded_flow_batch_size (graph_ilocs : list Z) (targets : pyvalue)
    (sym : bool) (batch_size : pyvalue) (name : option string)
    (shuffle : bool) (seed : option Z) (self : instance) :
  (¬ batch_size_accepted batch_size →
   ∃ e, PaddedGraphGenerator.flow graph_ilocs targets sym batch_size name
          shuffle seed self = (Err e, self)
        ∧ (e = TypeError ∨ e = ValueError))
  ∧ (targets_accepted targets graph_ilocs →
     (isinstance_int batch_size = false →
      PaddedGraphGenerator.flow graph_ilocs targets sym batch_size name shuffle
        seed self = (Err TypeError, self))
     ∧ (∀ z, batch_size = PyInt z → z ≤ 0 →
        PaddedGraphGenerator.flow graph_ilocs targets sym batch_size name
          shuffle seed self = (Err ValueError, self))
     ∧ (batch_size_accepted batch_size →
        Forall (valid_position (graphs self)) graph_ilocs →
        ∃ seq, PaddedGraphGenerator.flow graph_ilocs targets sym batch_size
                 name shuffle seed self = (Ok seq, self)
               ∧ pgs_batch_size seq = batch_size)).
Proof.
  split.
  - intros Hrej.
    destruct (targets_accepted_dec targets graph_ilocs) as [Hacc|Hnacc].
    + destruct (padded_flow_bad_batch graph_ilocs targets sym batch_size name
                  shuffle seed self Hacc) as [Htype Hvalue].
      destruct (batch_size_rejected batch_size Hrej) as [Hnone|(z & Hz & Hle)].
      * exists TypeError. auto.
      * exists ValueError. eauto.
    + destruct (targets_rejected targets graph_ilocs Hnacc)
        as [Hnone [Hit|(Hit & n & Hlen & Hne)]].
      * exists TypeError. split; [|auto].
        eapply flow_not_iterable; eassumption.
      * exists ValueError. split; [|auto].
        eapply flow_length_mismatch; eassumption.
  - intros Hacc.
    destruct (padded_flow_bad_batch graph_ilocs targets sym batch_size name
                shuffle seed self Hacc) as [Htype Hvalue].
    split; [|split].
    + intros Hint. apply Htype, int_value_not_int, Hint.
    + intros z -> Hz. apply (Hvalue z); [reflexivity|exact Hz].
    + intros Hbatch Hvalid.
      rewrite padded_flow_good_batch by assumption.
      destruct (mapM_getitem_valid (graphs self) graph_ilocs Hvalid)
        as (sel & -> & _).
      eexists. split; reflexivity.
Qed.

Lemma C5_padded_flow_batch_size_witness :
  PaddedGraphGenerator.flow [0; 1] targets_1_0 true (PyFloat 1 1) None false
    None generator_2x4 = (Err TypeError, generator_2x4)
  ∧ PaddedGraphGenerator.flow [0; 1] targets_1_0 true (PyInt 0) None false
      None generator_2x4 = (Err ValueError, generator_2x4)
  ∧ PaddedGraphGenerator.flow [0; 1] targets_1_0 true (PyInt (-1)) None false
      None generator_2x4 = (Err ValueError, generator_2x4)
  ∧ ∃ seq, PaddedGraphGenerator.flow [0; 1] targets_1_0 true (PyInt 2) None
             false None generator_2x4 = (Ok seq, generator_2x4)
           ∧ pgs_batch_size seq = PyInt 2.
Proof.
  assert (Hacc : targets_accepted targets_1_0 [0; 1])
    by (right; split; reflexivity).
  split; [|split; [|split]].
  - apply (C5_padded_flow_batch_size [0; 1] targets_1_0 true (PyFloat 1 1)
             None false None generator_2x4); [exact Hacc|reflexivity].
  - apply (C5_padded_flow_batch_size [0; 1] targets_1_0 true (PyInt 0)
             None false None generator_2x4) with (z := 0);
      [exact Hacc|reflexivity|lia].
  - apply (C5_padded_flow_batch_size [0; 1] targets_1_0 true (PyInt (-1))
             None false None generator_2x4) with (z := -1);
      [exact Hacc|reflexivity|lia].
  - apply (C5_padded_flow_batch_size [0; 1] targets_1_0 true (PyInt 2)
             None false None generator_2x4); [exact Hacc| |].
    + exists 2. split; [reflexivity|lia].
    + repeat constructor; simpl; lia.
Defined.

(** C6. In both [flow] methods, targets that are not [None] and not a real
    iterable raise a [TypeError]; targets that are a real iterable of
    another length than the index list raise a [ValueError]; and with
    [None] for targets both checks are skipped: an error can then only come
    from the batch size (padded variant) or from a position out of
    range. *)
Theorem C6_targets_checks (graph_ilocs : list Z) (targets batch_size : pyvalue)
    (name : option string) (sym shuffle : bool) (seed : option Z)
    (self : instance) :
  (targets ≠ PyNone → is_real_iterable targets = false →
   GraphGenerator.flow graph_ilocs targets batch_size name self
   = (Err TypeError, self)
   ∧ PaddedGraphGenerator.flow graph_ilocs targets sym batch_size name shuffle
       seed self = (Err TypeError, self))
  ∧ (∀ n, targets ≠ PyNone → is_real_iterable targets = true →
          len targets = Ok n → n ≠ length graph_ilocs →
     GraphGenerator.flow graph_ilocs targets batch_size name self
     = (Err ValueError, self)
     ∧ PaddedGraphGenerator.flow graph_ilocs targets sym batch_size name
         shuffle seed self = (Err ValueError, self))
  ∧ (targets = PyNone →
     (∀ e, fst (GraphGenerator.flow graph_ilocs targets batch_size name self)
           = Err e →
           e = IndexError ∧ Exists (out_of_range (graphs self)) graph_ilocs)
     ∧ (∀ e, fst (PaddedGraphGenerator.flow graph_ilocs targets sym batch_size
                    name shuffle seed self) = Err e →
             (e = TypeError ∧ isinstance_int batch_size = false)
             ∨ (e = ValueError ∧ ∃ z, int_value batch_size = Some z ∧ z ≤ 0)
             ∨ (e = IndexError
                ∧ Exists (out_of_range (graphs self)) graph_ilocs))).
Proof.
  split; [|split].
  - intros Hnone Hit. apply flow_not_iterable; assumption.
  - intros n _ Hit Hlen Hne. eapply flow_length_mismatch; eassumption.
  - intros ->. split; intros e.
    + rewrite unpadded_flow_accepted by (left; reflexivity). simpl.
      destruct (mapM _ graph_ilocs) as [e'|sel] eqn:Hsel; [|discriminate].
      intros [= <-]. split.
      * eapply mapM_getitem_raises, Hsel.
      * eapply mapM_getitem_raises_at, Hsel.
    + rewrite padded_flow_accepted by (left; reflexivity). simpl.
      destruct (int_value batch_size) as [z|] eqn:Hz.
      * destruct (Z.leb_spec z 0).
        { intros [= <-]. right. left. eauto. }
        destruct (mapM _ graph_ilocs) as [e'|sel] eqn:Hsel; [|discriminate].
        intros [= <-]. right. right. split.
        -- eapply mapM_getitem_raises, Hsel.
        -- eapply mapM_getitem_raises_at, Hsel.
      * intros [= <-]. left. split; [reflexivity|].
        apply int_value_not_int, Hz.
Qed.

Lemma C6_targets_checks_witness :
  (GraphGenerator.flow [0; 1] (PyInt 3) (PyInt 1) None generator_2x4
   = (Err TypeError, generator_2x4)
   ∧ PaddedGraphGenerator.flow [0; 1] (PyInt 3) true (PyInt 1) None false None
       generator_2x4 = (Err TypeError, generator_2x4))
  ∧ (GraphGenerator.flow [0] targets_1_0 (PyInt 1) None generator_2x4
     = (Err ValueError, generator_2x4)
     ∧ PaddedGraphGenerator.flow [0] targets_1_0 true (PyInt 1) None false None
         generator_2x4 = (Err ValueError, generator_2x4))
  ∧ (∀ e, fst (GraphGenerator.flow [0; 2] PyNone (PyInt 1) None generator_2x4)
          = Err e →
          e = IndexError ∧ Exists (out_of_range (graphs generator_2x4)) [0; 2]).
Proof.
  split; [|split].
  - apply (C6_targets_checks [0; 1] (PyInt 3) (PyInt 1) None true false None
             generator_2x4); [discriminate|reflexivity].
  - apply (C6_targets_checks [0] targets_1_0 (PyInt 1) None true false None
             generator_2x4) with (n := 2%nat);
      [discriminate|reflexivity|reflexivity|simpl; lia].
  - apply (C6_targets_checks [0; 2] PyNone (PyInt 1) None true false None
             generator_2x4). reflexivity.
Defined.

(** C7. When every entry of the index list is a valid position and the
    targets pass their checks (and, for the padded variant, the batch size
    is an integer of at least 1), [flow] returns a sequence bound to as
    many graphs as there are indices, the [k]-th of them being
    [self.graphs[graph_ilocs[k]]]: the order of the indices is kept and an
    index may occur more than once. *)
Theorem C7_flow_selects_in_order (graph_ilocs : list Z)
    (targets batch_size : pyvalue) (name : option string) (sym shuffle : bool)
    (seed : option Z) (self : instance) :
  Forall (valid_position (graphs self)) graph_ilocs →
  targets_accepted targets graph_ilocs →
  (∃ seq, GraphGenerator.flow graph_ilocs targets batch_size name self
          = (Ok seq, self)
          ∧ length (gs_graphs seq) = length graph_ilocs
          ∧ ∀ (k : nat) (i : Z), graph_ilocs !! k = Some i →
              ∃ g, gs_graphs seq !! k = Some g
                   ∧ list_getitem (graphs self) i = Ok g)
  ∧ (batch_size_accepted batch_size →
     ∃ seq, PaddedGraphGenerator.flow graph_ilocs targets sym batch_size name
              shuffle seed self = (Ok seq, self)
            ∧ length (pgs_graphs seq) = length graph_ilocs
            ∧ ∀ (k : nat) (i : Z), graph_ilocs !! k = Some i →
                ∃ g, pgs_graphs seq !! k = Some g
                     ∧ list_getitem (graphs self) i = Ok g).
Proof.
  intros Hvalid Hacc.
  destruct (mapM_getitem_valid (graphs self) graph_ilocs Hvalid)
    as (sel & Hsel & Hall).
  destruct (selection_pointwise _ _ _ Hall) as [Hlen Hpoint].
  split.
  - rewrite unpadded_flow_accepted by exact Hacc. rewrite Hsel.
    eexists. split; [reflexivity|]. split; assumption.
  - intros Hbatch. rewrite padded_flow_good_batch by assumption.
    rewrite Hsel. eexists. split; [reflexivity|]. split; assumption.
Qed.

Lemma C7_flow_selects_in_order_witness :
  (∃ seq, GraphGenerator.flow [1; 0; 1] PyNone (PyInt 1) None generator_2x4
          = (Ok seq, generator_2x4)
          ∧ length (gs_graphs seq) = 3%nat
          ∧ ∀ (k : nat) (i : Z), [1; 0; 1] !! k = Some i →
              ∃ g, gs_graphs seq !! k = Some g
                   ∧ list_getitem [graph_a4; graph_b4] i = Ok g)
  ∧ (∃ seq, PaddedGraphGenerator.flow [1; 0; 1] PyNone true (PyInt 1) None
              false None generator_2x4 = (Ok seq, generator_2x4)
            ∧ length (pgs_graphs seq) = 3%nat
            ∧ ∀ (k : nat) (i : Z), [1; 0; 1] !! k = Some i →
                ∃ g, pgs_graphs seq !! k = Some g
                     ∧ list_getitem [graph_a4; graph_b4] i = Ok g).
Proof.
  destruct (C7_flow_selects_in_order [1; 0; 1] PyNone (PyInt 1) None true false
              None generator_2x4) as [Hunpadded Hpadded].
  - repeat constructor; simpl; lia.
  - left. reflexivity.
  - split; [exact Hunpadded|]. apply Hpadded.
    exists 1. split; [reflexivity|lia].
Defined.

(** C8. No call of [flow], of either generator, changes the instance:
    [graphs], [node_features_size] and [name] are the same after the call
    as before it, whether it returned a sequence or raised. *)
Theorem C8_flow_leaves_instance_unchanged (graph_ilocs : list Z)
    (targets batch_size : pyvalue) (name : option string) (sym shuffle : bool)
    (seed : option Z) (self : instance) :
  snd (GraphGenerator.flow graph_ilocs targets batch_size name self) = self
  ∧ snd (PaddedGraphGenerator.flow graph_ilocs targets sym batch_size name
           shuffle seed self) = self.
Proof. split; [apply unpadded_flow_frame|apply padded_flow_frame]. Qed.

(** C10. With an index list that holds a position out of range, [flow]
    raises an [IndexError] when the targets (and, in the padded variant,
    the batch size) pass their checks; when they do not, the error of the
    failing check is raised and no [IndexError]. *)
Theorem C10_flow_out_of_range (graph_ilocs : list Z)
    (targets batch_size : pyvalue) (name : option string) (sym shuffle : bool)
    (seed : option Z) (self : instance) :
  Exists (out_of_range (graphs self)) graph_ilocs →
  (targets_accepted targets graph_ilocs →
   GraphGenerator.flow graph_ilocs targets batch_size name self
   = (Err IndexError, self))
  ∧ (¬ targets_accepted targets graph_ilocs →
     ∃ e, GraphGenerator.flow graph_ilocs targets batch_size name self
          = (Err e, self) ∧ e ≠ IndexError)
  ∧ (targets_accepted targets graph_ilocs →
     batch_size_accepted batch_size →
     PaddedGraphGenerator.flow graph_ilocs targets sym batch_size name shuffle
       seed self = (Err IndexError, self))
  ∧ (¬ (targets_accepted targets graph_ilocs
        ∧ batch_size_accepted batch_size) →
     ∃ e, PaddedGraphGenerator.flow graph_ilocs targets sym batch_size name
            shuffle seed self = (Err e, self) ∧ e ≠ IndexError).
Proof.
  intros Hout.
  pose proof (mapM_getitem_out_of_range (graphs self) graph_ilocs Hout)
    as Hsel.
  assert (Hrejected : ¬ targets_accepted targets graph_ilocs →
    ∃ e, (GraphGenerator.flow graph_ilocs targets batch_size name self
          = (Err e, self)
          ∧ PaddedGraphGenerator.flow graph_ilocs targets sym batch_size name
              shuffle seed self = (Err e, self))
         ∧ e ≠ IndexError).
  { intros Hnacc.
    destruct (targets_rejected targets graph_ilocs Hnacc)
      as [Hnone [Hit|(Hit & n & Hlen & Hne)]].
    - exists TypeError. split; [|discriminate].
      apply flow_not_iterable; assumption.
    - exists ValueError. split; [|discriminate].
      eapply flow_length_mismatch; eassumption. }
  split; [|split; [|split]].
  - intros Hacc. rewrite unpadded_flow_accepted by exact Hacc.
    rewrite Hsel. reflexivity.
  - intros Hnacc. destruct (Hrejected Hnacc) as (e & [He _] & Hne). eauto.
  - intros Hacc Hbatch. rewrite padded_flow_good_batch by assumption.
    rewrite Hsel. reflexivity.
  - intros Hnot.
    destruct (targets_accepted_dec targets graph_ilocs) as [Hacc|Hnacc].
    + destruct (padded_flow_bad_batch graph_ilocs targets sym batch_size name
                  shuffle seed self Hacc) as [Htype Hvalue].
      destruct (batch_size_rejected batch_size) as [Hnone|(z & Hz & Hle)];
        [tauto| |].
      * exists TypeError. split; [auto|discriminate].
      * exists ValueError. split; [eauto|discriminate].
    + destruct (Hrejected Hnacc) as (e & [_ He] & Hne). eauto.
Qed.

Lemma C10_flow_out_of_range_witness :
  GraphGenerator.flow [0; 2] targets_1_0 (PyInt 1) None generator_2x4
  = (Err IndexError, generator_2x4)
  ∧ PaddedGraphGenerator.flow [0; 2] targets_1_0 true (PyInt 1) None false None
      generator_2x4 = (Err IndexError, generator_2x4)
  ∧ (∃ e, GraphGenerator.flow [-3] targets_1_0 (PyInt 1) None generator_2x4
          = (Err e, generator_2x4) ∧ e ≠ IndexError)
  ∧ (∃ e, PaddedGraphGenerator.flow [-3] PyNone true (PyInt 0) None false None
            generator_2x4 = (Err e, generator_2x4) ∧ e ≠ IndexError).
Proof.
  assert (Hout : Exists (out_of_range (graphs generator_2x4)) [0; 2]).
  { apply Exists_cons_tl, Exists_cons_hd. right. simpl. lia. }
  assert (Hout' : Exists (out_of_range (graphs generator_2x4)) [-3]).
  { apply Exists_cons_hd. left. simpl. lia. }
  assert (Hacc : targets_accepted targets_1_0 [0; 2])
    by (right; split; reflexivity).
  split; [|split; [|split]].
  - apply (C10_flow_out_of_range [0; 2] targets_1_0 (PyInt 1) None true false
             None generator_2x4 Hout). exact Hacc.
  - apply (C10_flow_out_of_range [0; 2] targets_1_0 (PyInt 1) None true false
             None generator_2x4 Hout); [exact Hacc|].
    exists 1. split; [reflexivity|lia].
  - apply (C10_flow_out_of_range [-3] targets_1_0 (PyInt 1) None true false
             None generator_2x4 Hout').
    intros [Hnone|[_ Hlen]]; discriminate.
  - apply (C10_flow_out_of_range [-3] PyNone (PyInt 0) None true false
             None generator_2x4 Hout').
    intros [_ (z & Hz & Hpos)]. injection Hz as <-. lia.
Defined.

(** ** What the constructors accept *)

Lemma init_step_Ok (acc acc' : option nat) (o : pyobject) :
  PaddedGraphGenerator.init_step acc o = Ok acc'
  ↔ ∃ d, padded_accepts d o ∧ acc' = Some d ∧ (acc = None ∨ acc = Some d).
Proof.
  split.
  - destruct o as [g|v]; [|discriminate].
    unfold PaddedGraphGenerator.init_step. simpl.
    unfold unique_node_type.
    destruct (node_types g) as [|t [|t' types]] eqn:Ht; try discriminate.
    simpl. destruct (check_graph_for_ml g) as [e|[]] eqn:Hc; [discriminate|].
    simpl. unfold dict_getitem.
    destruct (node_feature_sizes g !! t) as [d|] eqn:Hs; [|discriminate].
    simpl. destruct acc as [d0|]; simpl.
    + destruct (Nat.eqb_spec d0 d) as [->|Hne]; [|discriminate].
      intros [= <-]. exists d. split; [|auto]. exists g, t. auto.
    + intros [= <-]. exists d. split; [|auto]. exists g, t. auto.
  - intros (d & (g & t & -> & Ht & Hc & Hs) & -> & Hacc).
    unfold PaddedGraphGenerator.init_step. simpl.
    unfold unique_node_type, dict_getitem. rewrite Ht. simpl.
    rewrite Hc. simpl. rewrite Hs. simpl.
    destruct Hacc as [->| ->]; [reflexivity|].
    rewrite Nat.eqb_refl. reflexivity.
Qed.

Lemma init_loop_Ok (acc acc' : option nat) (l : list pyobject) :
  PaddedGraphGenerator.init_loop acc l = Ok acc'
  ↔ (l = [] ∧ acc' = acc)
    ∨ (l ≠ [] ∧ ∃ d, acc' = Some d ∧ (acc = None ∨ acc = Some d)
                     ∧ Forall (padded_accepts d) l).
Proof.
  revert acc. induction l as [|o l IH]; intros acc.
  - simpl. split.
    + intros [= <-]. left. auto.
    + intros [[_ ->]|[Hne _]]; [reflexivity|contradiction].
  - simpl. split.
    + intros Hloop. right. split; [discriminate|].
      apply bind_Ok in Hloop as (acc1 & Hstep & Hloop).
      apply init_step_Ok in Hstep as (d & Ho & -> & Hacc).
      apply IH in Hloop as [[-> ->]|(_ & d' & -> & Hd' & Hall)].
      * exists d. split; [reflexivity|]. split; [exact Hacc|].
        constructor; [exact Ho|constructor].
      * destruct Hd' as [Hd'|[= <-]]; [discriminate|].
        exists d. split; [reflexivity|]. split; [exact Hacc|].
        constructor; assumption.
    + intros [[Hnil _]|(_ & d & -> & Hacc & Hall)]; [discriminate|].
      inversion Hall as [|? ? Ho Hl]; subst.
      assert (Hstep : PaddedGraphGenerator.init_step acc o = Ok (Some d))
        by (apply init_step_Ok; eauto).
      rewrite Hstep. change (Ok ?x ≫= ?k) with (k x). cbv beta.
      apply IH. destruct l as [|o' l'].
      * left. auto.
      * right. split; [discriminate|]. exists d. auto.
Qed.

Lemma padded_init_Ok (graphs0 : list pyobject)
    (name0 : option string) (self : instance) :
  PaddedGraphGenerator.__init__ graphs0 name0 = Ok self
  ↔ graphs self = graphs0 ∧ name self = name0
    ∧ ((graphs0 = [] ∧ node_features_size self = None)
       ∨ (graphs0 ≠ []
          ∧ ∃ d, node_features_size self = Some d
                 ∧ Forall (padded_accepts d) graphs0)).
Proof.
  unfold PaddedGraphGenerator.__init__. split.
  - intros Hinit. apply bind_Ok in Hinit as (nfs & Hloop & [= <-]). simpl.
    split; [reflexivity|]. split; [reflexivity|].
    apply init_loop_Ok in Hloop as [[-> ->]|(Hne & d & -> & _ & Hall)];
      [left; auto|right; eauto].
  - destruct self as [gs nfs nm]. simpl. intros (-> & -> & Hcases).
    assert (Hloop : PaddedGraphGenerator.init_loop None graphs0 = Ok nfs).
    { apply init_loop_Ok.
      destruct Hcases as [[-> ->]|(Hne & d & -> & Hall)];
        [left; auto|right]. split; [exact Hne|]. exists d. auto. }
    rewrite Hloop. reflexivity.
Qed.


(** X1. The constructor of [PaddedGraphGenerator] succeeds exactly when
    the list is empty, and then records no dimensionality, or every element
    is a graph with exactly one node type that passes the readiness check
    and all graphs give one feature size [d] for their node type, and then
    records [d]; in either case it records the list and the name as given. *)
Theorem X1_padded_init_succeeds_iff (graphs0 : list pyobject)
    (name0 : option string) (self : instance) :
  PaddedGraphGenerator.__init__ graphs0 name0 = Ok self
  ↔ graphs self = graphs0 ∧ name self = name0
    ∧ ((graphs0 = [] ∧ node_features_size self = None)
       ∨ (graphs0 ≠ []
          ∧ ∃ d, node_features_size self = Some d
                 ∧ Forall (padded_accepts d) graphs0)).
Proof. apply padded_init_Ok. Qed.

(** X2. Whether the constructor of [PaddedGraphGenerator] accepts a
    collection, and the dimensionality it records, do not depend on the
    order of the graphs. *)
Theorem X2_padded_init_order_independent (l l' : list pyobject)
    (name0 : option string) (nfs : option nat) :
  l ≡ₚ l' →
  PaddedGraphGenerator.__init__ l name0
  = Ok {| graphs := l; node_features_size := nfs; name := name0 |}
  ↔ PaddedGraphGenerator.__init__ l' name0
    = Ok {| graphs := l'; node_features_size := nfs; name := name0 |}.
Proof.
  assert (Hone : ∀ l1 l2 : list pyobject, l1 ≡ₚ l2 →
    PaddedGraphGenerator.__init__ l1 name0
    = Ok {| graphs := l1; node_features_size := nfs; name := name0 |} →
    PaddedGraphGenerator.__init__ l2 name0
    = Ok {| graphs := l2; node_features_size := nfs; name := name0 |}).
  { intros l1 l2 Hperm Hinit.
    apply padded_init_Ok.
    apply padded_init_Ok in Hinit. simpl in *.
    destruct Hinit as (_ & _ & Hcases).
    split; [reflexivity|]. split; [reflexivity|].
    destruct Hcases as [[-> ->]|(Hne & d & -> & Hall)].
    - left. split; [|reflexivity]. apply Permutation_nil_l in Hperm. auto.
    - right. split.
      + intros ->. apply Permutation_nil_r in Hperm. contradiction.
      + exists d. split; [reflexivity|]. rewrite <- Hperm. exact Hall. }
  intros Hperm. split; apply Hone; [exact Hperm|symmetry; exact Hperm].
Qed.

Lemma padded_init_of_accepts (l : list pyobject) (name0 : option string)
    (d : nat) :
  Forall (padded_accepts d) l →
  PaddedGraphGenerator.__init__ l name0
  = Ok {| graphs := l;
          node_features_size := match l with [] => None | _ => Some d end;
          name := name0 |}.
Proof.
  intros Hall. apply padded_init_Ok. simpl.
  split; [reflexivity|]. split; [reflexivity|].
  destruct l as [|o l]; [left; auto|right].
  split; [discriminate|]. eauto.
Qed.

(** X3. Two collections can be merged into one padded generator exactly
    when each of them is accepted on its own and, unless one of them is
    empty, they record the same dimensionality; in particular every prefix
    and suffix of an accepted collection is accepted. *)
Theorem X3_padded_init_concat (l1 l2 : list pyobject) (name0 : option string) :
  (∃ self, PaddedGraphGenerator.__init__ (l1 ++ l2) name0 = Ok self)
  ↔ ∃ s1 s2, PaddedGraphGenerator.__init__ l1 name0 = Ok s1
             ∧ PaddedGraphGenerator.__init__ l2 name0 = Ok s2
             ∧ (node_features_size s1 = None
                ∨ node_features_size s2 = None
                ∨ node_features_size s1 = node_features_size s2).
Proof.
  split.
  - intros [self Hinit].
    apply padded_init_Ok in Hinit as (_ & _ & Hcases).
    destruct Hcases as [[Hnil _]|(_ & d & _ & Hall)].
    + apply app_eq_nil in Hnil as [-> ->].
      eexists _, _. split; [reflexivity|]. split; [reflexivity|]. auto.
    + apply Forall_app in Hall as [H1 H2].
      eexists _, _.
      split; [apply (padded_init_of_accepts l1 name0 d H1)|].
      split; [apply (padded_init_of_accepts l2 name0 d H2)|]. simpl.
      destruct l1; [auto|]. destruct l2; auto.
  - intros (s1 & s2 & Hs1 & Hs2 & Hdims).
    apply padded_init_Ok in Hs1 as (_ & _ & Hc1).
    apply padded_init_Ok in Hs2 as (_ & _ & Hc2).
    destruct Hc1 as [[-> _]|(Hne1 & d1 & Hd1 & Hall1)].
    { simpl. destruct Hc2 as [[-> _]|(_ & d2 & _ & Hall2)].
      - eexists. reflexivity.
      - eexists. apply (padded_init_of_accepts l2 name0 d2 Hall2). }
    destruct Hc2 as [[-> _]|(Hne2 & d2 & Hd2 & Hall2)].
    { rewrite app_nil_r. eexists.
      apply (padded_init_of_accepts l1 name0 d1 Hall1). }
    rewrite Hd1, Hd2 in Hdims.
    destruct Hdims as [?|[?|[= ->]]]; try discriminate.
    eexists. apply (padded_init_of_accepts (l1 ++ l2) name0 d2).
    apply Forall_app. auto.
Qed.

Lemma for_res_Ok_inv {A : Type} (l : list A) (body : A → res unit) :
  for_ l body = Ok () → Forall (λ x, body x = Ok ()) l.
Proof.
  induction l as [|x l IH]; simpl; [constructor|].
  intros Hloop. apply bind_Ok in Hloop as ([] & Hx & Hrest).
  constructor; [exact Hx|apply IH, Hrest].
Qed.

Lemma unpadded_init_Ok (graphs0 : list pyobject) (name0 : option string)
    (self : instance) :
  GraphGenerator.__init__ graphs0 name0 = Ok self
  ↔ ∃ g0 rest d,
      graphs0 = Graph g0 :: rest
      ∧ node_features_shape1 g0 = Ok d
      ∧ Forall unpadded_accepts graphs0
      ∧ self = {| graphs := graphs0; node_features_size := Some d;
                  name := name0 |}.
Proof.
  split.
  - unfold GraphGenerator.__init__. intros Hinit.
    apply bind_Ok in Hinit as ([] & Htypes & Hinit).
    apply bind_Ok in Hinit as (o0 & Hfirst & Hinit).
    apply bind_Ok in Hinit as (d & Hd & Hinit).
    apply bind_Ok in Hinit as ([] & Hchecks & Hinit).
    apply bind_Ok in Hinit as ([] & Hnode_types & [= <-]).
    apply for_res_Ok_inv in Htypes, Hchecks, Hnode_types.
    destruct graphs0 as [|o rest]; [discriminate|].
    rewrite list_getitem_0_cons in Hfirst. injection Hfirst as <-.
    destruct o as [g0|v]; [|discriminate].
    exists g0, rest, d. split; [reflexivity|]. split; [exact Hd|].
    split; [|reflexivity].
    apply Forall_forall. intros o Ho.
    rewrite Forall_forall in Htypes, Hchecks, Hnode_types.
    specialize (Htypes o Ho). specialize (Hchecks o Ho).
    specialize (Hnode_types o Ho).
    destruct o as [g|v]; [|discriminate].
    exists g. split; [reflexivity|]. split; [exact Hchecks|].
    simpl in Hnode_types.
    destruct (Nat.ltb_spec 1 (length (node_types g))); [discriminate|lia].
  - intros (g0 & rest & d & -> & Hd & Hall & ->).
    rewrite (unpadded_init_checked g0 rest name0 d Hd).
    + rewrite for_res_ok; [reflexivity|].
      eapply Forall_impl; [exact Hall|].
      intros o (g & -> & _ & Hlen). simpl.
      destruct (Nat.ltb_spec 1 (length (node_types g))); [lia|reflexivity].
    + eapply Forall_impl; [exact Hall|].
      intros o (g & -> & Hc & _). exists g. auto.
Qed.

(** X4. The constructor of [GraphGenerator] succeeds exactly when the list
    is not empty, every element is a graph that passes the readiness check
    and has at most one node type, and the features of the first graph can
    be retrieved; it then records the list, the name and the number of
    feature columns of the first graph. The feature sizes of the other
    graphs are not looked at. *)
Theorem X4_unpadded_init_succeeds_iff (graphs0 : list pyobject)
    (name0 : option string) (self : instance) :
  GraphGenerator.__init__ graphs0 name0 = Ok self
  ↔ ∃ g0 rest d,
      graphs0 = Graph g0 :: rest
      ∧ node_features_shape1 g0 = Ok d
      ∧ Forall unpadded_accepts graphs0
      ∧ self = {| graphs := graphs0; node_features_size := Some d;
                  name := name0 |}.
Proof. apply unpadded_init_Ok. Qed.

(** ** Why a constructor fails *)

Lemma bind_Err {A B : Type} (m : res A) (k : A → res B) (e : exn) :
  m ≫= k = Err e → m = Err e ∨ ∃ x, m = Ok x ∧ k x = Err e.
Proof. destruct m as [e'|x]; simpl; [intros [= <-]; auto|eauto]. Qed.

Lemma for_res_Err_inv {A : Type} (l : list A) (body : A → res unit) (e : exn) :
  for_ l body = Err e → Exists (λ x, body x = Err e) l.
Proof.
  induction l as [|x l IH]; simpl; [discriminate|].
  intros Hloop. apply bind_Err in Hloop as [Hx|([] & _ & Hrest)].
  - left. exact Hx.
  - right. apply IH, Hrest.
Qed.

(** The reasons the loop body of the padded constructor has to raise on an
    element [o], given the dimensionality [acc] recorded so far. *)
Lemma init_step_Err (acc : option nat) (o : pyobject) (e : exn) :
  PaddedGraphGenerator.init_step acc o = Err e →
  (e = TypeError ∧ not_a_graph o)
  ∨ (e = ValueError ∧ ∃ g, o = Graph g ∧ length (node_types g) ≠ 1%nat)
  ∨ (∃ g t, o = Graph g ∧ node_types g = [t] ∧ check_graph_for_ml g = Err e)
  ∨ (e = KeyError
     ∧ ∃ g t, o = Graph g ∧ node_types g = [t]
              ∧ check_graph_for_ml g = Ok ()
              ∧ node_feature_sizes g !! t = None)
  ∨ (e = ValueError
     ∧ ∃ d d', acc = Some d ∧ padded_accepts d' o ∧ d ≠ d').
Proof.
  destruct o as [g|v].
  2:{ intros [= <-]. left. split; reflexivity. }
  unfold PaddedGraphGenerator.init_step. simpl. unfold unique_node_type.
  destruct (node_types g) as [|t [|t' types]] eqn:Ht; simpl.
  - intros [= <-]. right. left. split; [reflexivity|].
    exists g. rewrite Ht. split; [reflexivity|discriminate].
  - destruct (check_graph_for_ml g) as [e'|[]] eqn:Hc; simpl.
    { intros [= <-]. right. right. left. exists g, t. auto. }
    unfold dict_getitem.
    destruct (node_feature_sizes g !! t) as [d'|] eqn:Hs; simpl.
    2:{ intros [= <-]. do 3 right. left. split; [reflexivity|].
        exists g, t. auto. }
    destruct acc as [d|]; simpl; [|discriminate].
    destruct (Nat.eqb_spec d d') as [->|Hne]; simpl; [discriminate|].
    intros [= <-]. do 4 right. split; [reflexivity|].
    exists d, d'. split; [reflexivity|]. split; [|exact Hne].
    exists g, t. auto.
  - intros [= <-]. right. left. split; [reflexivity|].
    exists g. rewrite Ht. split; [reflexivity|]. simpl. lia.
Qed.

(** A failing loop fails at one element, after a prefix it got through. *)
Lemma init_loop_Err (acc : option nat) (l : list pyobject) (e : exn) :
  PaddedGraphGenerator.init_loop acc l = Err e →
  ∃ pre o post acc',
    l = pre ++ o :: post
    ∧ PaddedGraphGenerator.init_loop acc pre = Ok acc'
    ∧ PaddedGraphGenerator.init_step acc' o = Err e.
Proof.
  revert acc. induction l as [|o l IH]; intros acc; simpl; [discriminate|].
  intros Hloop. apply bind_Err in Hloop as [Hstep|(acc1 & Hstep & Hrest)].
  - exists [], o, l, acc. auto.
  - destruct (IH acc1 Hrest) as (pre & o' & post & acc' & -> & Hpre & Ho').
    exists (o :: pre), o', post, acc'. split; [reflexivity|].
    split; [|exact Ho']. simpl. rewrite Hstep. exact Hpre.
Qed.

(** X5. When the constructor of [PaddedGraphGenerator] raises, the list
    splits into a prefix of accepted graphs of one dimensionality and a
    first offending element, and the error names what is wrong with that
    element: a [TypeError] for a non-graph, a [ValueError] for a graph
    without exactly one node type, the error of its readiness check, a
    [KeyError] for a node type without a feature size, or a [ValueError]
    for a dimensionality that differs from the one of the prefix. *)
Theorem X5_padded_init_first_offender (graphs0 : list pyobject)
    (name0 : option string) (e : exn) :
  PaddedGraphGenerator.__init__ graphs0 name0 = Err e →
  ∃ pre o post d,
    graphs0 = pre ++ o :: post
    ∧ Forall (padded_accepts d) pre
    ∧ ((e = TypeError ∧ not_a_graph o)
       ∨ (e = ValueError
          ∧ ∃ g, o = Graph g ∧ length (node_types g) ≠ 1%nat)
       ∨ (∃ g t, o = Graph g ∧ node_types g = [t]
                 ∧ check_graph_for_ml g = Err e)
       ∨ (e = KeyError
          ∧ ∃ g t, o = Graph g ∧ node_types g = [t]
                   ∧ check_graph_for_ml g = Ok ()
                   ∧ node_feature_sizes g !! t = None)
       ∨ (e = ValueError
          ∧ pre ≠ [] ∧ ∃ d', padded_accepts d' o ∧ d ≠ d')).
Proof.
  unfold PaddedGraphGenerator.__init__. intros Hinit.
  apply bind_Err in Hinit as [Hloop|(nfs & _ & Hret)]; [|discriminate].
  apply init_loop_Err in Hloop as (pre & o & post & acc' & -> & Hpre & Hstep).
  apply init_loop_Ok in Hpre as [[-> ->]|(Hne & d & -> & _ & Hall)].
  - exists [], o, post, 0%nat. split; [reflexivity|]. split; [constructor|].
    apply init_step_Err in Hstep
      as [?|[?|[?|[?|(_ & d & d' & Hacc & _)]]]]; auto. discriminate.
  - exists pre, o, post, d. split; [reflexivity|]. split; [exact Hall|].
    apply init_step_Err in Hstep
      as [?|[?|[?|[?|(-> & d0 & d' & [= <-] & Ho & Hdiff)]]]]; auto.
    do 4 right. split; [reflexivity|]. split; [exact Hne|]. eauto.
Qed.

Lemma X5_padded_init_first_offender_witness :
  ∃ pre o post d,
    [graph_a4; graph_b4; graph_a5; not_a_graph_x] = pre ++ o :: post
    ∧ Forall (padded_accepts d) pre
    ∧ ((ValueError = TypeError ∧ not_a_graph o)
       ∨ (ValueError = ValueError
          ∧ ∃ g, o = Graph g ∧ length (node_types g) ≠ 1%nat)
       ∨ (∃ g t, o = Graph g ∧ node_types g = [t]
                 ∧ check_graph_for_ml g = Err ValueError)
       ∨ (ValueError = KeyError
          ∧ ∃ g t, o = Graph g ∧ node_types g = [t]
                   ∧ check_graph_for_ml g = Ok ()
                   ∧ node_feature_sizes g !! t = None)
       ∨ (ValueError = ValueError
          ∧ pre ≠ [] ∧ ∃ d', padded_accepts d' o ∧ d ≠ d')).
Proof.
  apply (X5_padded_init_first_offender
           [graph_a4; graph_b4; graph_a5; not_a_graph_x] None ValueError).
  vm_compute. reflexivity.
Defined.

(** X6. When the constructor of [GraphGenerator] raises, the error has one
    of five causes: a [TypeError] for a list with a non-graph element; an
    [IndexError] for the empty list; the error of the feature retrieval on
    the first graph; the error of the readiness check of one of the
    graphs; or a [ValueError] for a list with a graph that has more than
    one node type. *)
Theorem X6_unpadded_init_failure_causes (graphs0 : list pyobject)
    (name0 : option string) (e : exn) :
  GraphGenerator.__init__ graphs0 name0 = Err e →
  (e = TypeError ∧ Exists not_a_graph graphs0)
  ∨ (e = IndexError ∧ graphs0 = [])
  ∨ (∃ g0 rest, graphs0 = Graph g0 :: rest ∧ node_features_shape1 g0 = Err e)
  ∨ (∃ g, Graph g ∈ graphs0 ∧ check_graph_for_ml g = Err e)
  ∨ (e = ValueError ∧ Exists multi_type_graph graphs0).
Proof.
  unfold GraphGenerator.__init__. intros Hinit.
  apply bind_Err in Hinit as [Htypes|([] & Htypes & Hinit)].
  { left. apply for_res_Err_inv in Htypes.
    assert (He : e = TypeError).
    { apply Exists_exists in Htypes as (o & _ & Ho).
      destruct o; simpl in Ho; [discriminate|]. injection Ho as <-.
      reflexivity. }
    split; [exact He|].
    eapply Exists_impl; [exact Htypes|].
    intros [g|v]; simpl; [discriminate|reflexivity]. }
  apply for_res_Ok_inv in Htypes.
  destruct graphs0 as [|o0 rest].
  { right. left. simpl in Hinit. injection Hinit as <-. auto. }
  rewrite list_getitem_0_cons in Hinit.
  change (Ok o0 ≫= ?k) with (k o0) in Hinit. cbv beta in Hinit.
  assert (Hg0 : ∃ g0, o0 = Graph g0).
  { inversion Htypes as [|? ? Ho0 _]; subst.
    destruct o0 as [g0|v]; [eauto|discriminate]. }
  destruct Hg0 as [g0 ->].
  apply bind_Err in Hinit as [Hd|(d & _ & Hinit)].
  { right. right. left. exists g0, rest. auto. }
  apply bind_Err in Hinit as [Hchecks|([] & _ & Hinit)].
  { do 3 right. left. apply for_res_Err_inv in Hchecks.
    apply Exists_exists in Hchecks as (o & Ho & Hc).
    destruct o as [g|v]; [|rewrite Forall_forall in Htypes;
                            specialize (Htypes _ Ho); discriminate].
    exists g. auto. }
  apply bind_Err in Hinit as [Hnode_types|([] & _ & Hret)]; [|discriminate].
  do 4 right. apply for_res_Err_inv in Hnode_types.
  apply Exists_exists in Hnode_types as (o & Hin & Ho).
  rewrite Forall_forall in Htypes. specialize (Htypes o Hin).
  destruct o as [g|v]; [|discriminate].
  simpl in Ho.
  destruct (Nat.ltb_spec 1 (length (node_types g))) as [Hlen|];
    [|discriminate].
  injection Ho as <-. split; [reflexivity|].
  apply Exists_exists. exists (Graph g). split; [exact Hin|].
  exists g. auto.
Qed.

Lemma X6_unpadded_init_failure_causes_witness :
  (ValueError = TypeError ∧ Exists not_a_graph [graph_a4; graph_ab])
  ∨ (ValueError = IndexError ∧ [graph_a4; graph_ab] = [])
  ∨ (∃ g0 rest, [graph_a4; graph_ab] = Graph g0 :: rest
                ∧ node_features_shape1 g0 = Err ValueError)
  ∨ (∃ g, Graph g ∈ [graph_a4; graph_ab]
          ∧ check_graph_for_ml g = Err ValueError)
  ∨ (ValueError = ValueError ∧ Exists multi_type_graph [graph_a4; graph_ab]).
Proof.
  apply (X6_unpadded_init_failure_causes [graph_a4; graph_ab] None ValueError).
  vm_compute. reflexivity.
Defined.

Lemma padded_accepts_unpadded (d : nat) (o : pyobject) :
  padded_accepts d o → unpadded_accepts o.
Proof.
  intros (g & t & -> & Ht & Hc & _). exists g.
  split; [reflexivity|]. split; [exact Hc|]. rewrite Ht. simpl. lia.
Qed.

(** X7. The padded constructor is the stricter of the two: a non-empty
    list it accepts is accepted by the constructor of [GraphGenerator] as
    well, as soon as the features of the first graph can be retrieved. *)
Theorem X7_padded_accepts_implies_unpadded (g0 : StellarGraph)
    (rest : list pyobject) (name0 : option string) (self : instance)
    (d : nat) :
  PaddedGraphGenerator.__init__ (Graph g0 :: rest) name0 = Ok self →
  node_features_shape1 g0 = Ok d →
  GraphGenerator.__init__ (Graph g0 :: rest) name0
  = Ok {| graphs := Graph g0 :: rest; node_features_size := Some d;
          name := name0 |}.
Proof.
  intros Hpadded Hd.
  apply padded_init_Ok in Hpadded as (_ & _ & Hcases).
  destruct Hcases as [[Hnil _]|(_ & d' & _ & Hall)]; [discriminate|].
  apply unpadded_init_Ok. exists g0, rest, d.
  split; [reflexivity|]. split; [exact Hd|]. split; [|reflexivity].
  eapply Forall_impl; [exact Hall|]. apply padded_accepts_unpadded.
Qed.

Lemma X7_padded_accepts_implies_unpadded_witness :
  GraphGenerator.__init__ [graph_a4; graph_b4] None
  = Ok {| graphs := [graph_a4; graph_b4]; node_features_size := Some 4%nat;
          name := None |}.
Proof.
  apply (X7_padded_accepts_implies_unpadded (single_type_graph "a" 4)
           [graph_b4] None generator_2x4 4%nat).
  - vm_compute. reflexivity.
  - reflexivity.
Defined.

Lemma X2_padded_init_order_independent_witness :
  PaddedGraphGenerator.__init__ [graph_a4; graph_b4] None
  = Ok {| graphs := [graph_a4; graph_b4]; node_features_size := Some 4%nat;
          name := None |}
  ↔ PaddedGraphGenerator.__init__ [graph_b4; graph_a4] None
    = Ok {| graphs := [graph_b4; graph_a4]; node_features_size := Some 4%nat;
            name := None |}.
Proof.
  apply (X2_padded_init_order_independent [graph_a4; graph_b4]
           [graph_b4; graph_a4] None (Some 4%nat)).
  apply perm_swap.
Defined.

(** ** What [flow] returns *)

Lemma positions_valid_or_not {A : Type} (l : list A) (ilocs : list Z) :
  Forall (valid_position l) ilocs ∨ Exists (out_of_range l) ilocs.
Proof.
  induction ilocs as [|i ilocs [IH|IH]].
  - left. constructor.
  - destruct (position_valid_or_not l i) as [Hi|Hi].
    + left. constructor; assumption.
    + right. left. exact Hi.
  - right. right. exact IH.
Qed.

Lemma list_getitem_Ok_valid {A : Type} (l : list A) (i : Z) (x : A) :
  list_getitem l i = Ok x → valid_position l i.
Proof.
  intros Hget. destruct (position_valid_or_not l i) as [Hi|Hi]; [exact Hi|].
  rewrite (list_getitem_out_of_range l i Hi) in Hget. discriminate.
Qed.

Lemma list_getitem_Ok_elem {A : Type} (l : list A) (i : Z) (x : A) :
  list_getitem l i = Ok x → x ∈ l.
Proof.
  unfold list_getitem. cbv zeta.
  destruct (_ || _); [discriminate|].
  destruct (l !! _) as [y|] eqn:Hl; [|discriminate].
  intros [= <-]. eapply list_elem_of_lookup_2, Hl.
Qed.

Lemma mapM_getitem_Ok {A : Type} (l : list A) (ilocs : list Z) (sel : list A) :
  mapM (list_getitem l) ilocs = Ok sel
  ↔ Forall2 (λ i x, list_getitem l i = Ok x) ilocs sel.
Proof.
  revert sel. induction ilocs as [|i ilocs IH]; intros sel; simpl.
  - split.
    + intros [= <-]. constructor.
    + intros Hall. inversion Hall. reflexivity.
  - split.
    + intros Hsel. apply bind_Ok in Hsel as (x & Hx & Hsel).
      apply bind_Ok in Hsel as (rest & Hrest & [= <-]).
      constructor; [exact Hx|]. apply IH, Hrest.
    + intros Hall. inversion Hall as [|? x ? rest Hx Hrest]; subst.
      rewrite Hx. simpl. apply IH in Hrest. rewrite Hrest. reflexivity.
Qed.

Lemma unpadded_flow_Ok (graph_ilocs : list Z) (targets batch_size : pyvalue)
    (name0 : option string) (self self' : instance) (seq : GraphSequence) :
  GraphGenerator.flow graph_ilocs targets batch_size name0 self
  = (Ok seq, self')
  ↔ self' = self
    ∧ targets_accepted targets graph_ilocs
    ∧ ∃ selected,
        mapM (list_getitem (graphs self)) graph_ilocs = Ok selected
        ∧ seq = {| gs_graphs := selected; gs_targets := targets;
                   gs_batch_size := batch_size; gs_name := name0 |}.
Proof.
  split.
  - intros Hflow.
    destruct (targets_accepted_dec targets graph_ilocs) as [Hacc|Hnacc].
    + rewrite unpadded_flow_accepted in Hflow by exact Hacc.
      destruct (mapM _ graph_ilocs) as [e|sel]; [discriminate|].
      injection Hflow as <- <-. eauto 6.
    + exfalso.
      destruct (targets_rejected targets graph_ilocs Hnacc)
        as [Hnone [Hit|(Hit & n & Hlen & Hne)]].
      * destruct (flow_not_iterable graph_ilocs targets batch_size name0 true
                    true None self Hnone Hit) as [Hu _].
        rewrite Hu in Hflow. discriminate.
      * destruct (flow_length_mismatch graph_ilocs targets batch_size name0
                    true true None self n Hit Hlen Hne) as [Hu _].
        rewrite Hu in Hflow. discriminate.
  - intros (-> & Hacc & sel & Hsel & ->).
    rewrite unpadded_flow_accepted by exact Hacc. rewrite Hsel. reflexivity.
Qed.

Lemma padded_flow_Ok (graph_ilocs : list Z) (targets : pyvalue) (sym : bool)
    (batch_size : pyvalue) (name0 : option string) (shuffle : bool)
    (seed : option Z) (self self' : instance) (seq : PaddedGraphSequence) :
  PaddedGraphGenerator.flow graph_ilocs targets sym batch_size name0 shuffle
    seed self = (Ok seq, self')
  ↔ self' = self
    ∧ targets_accepted targets graph_ilocs
    ∧ batch_size_accepted batch_size
    ∧ ∃ selected,
        mapM (list_getitem (graphs self)) graph_ilocs = Ok selected
        ∧ seq = {| pgs_graphs := selected; pgs_targets := targets;
                   pgs_symmetric_normalization := sym;
                   pgs_batch_size := batch_size; pgs_name := name0;
                   pgs_shuffle := shuffle; pgs_seed := seed |}.
Proof.
  split.
  - intros Hflow.
    destruct (targets_accepted_dec targets graph_ilocs) as [Hacc|Hnacc].
    + rewrite padded_flow_accepted in Hflow by exact Hacc.
      destruct (int_value batch_size) as [z|] eqn:Hz; [|discriminate].
      destruct (Z.leb_spec z 0); [discriminate|].
      destruct (mapM _ graph_ilocs) as [e|sel]; [discriminate|].
      injection Hflow as <- <-.
      split; [reflexivity|]. split; [exact Hacc|].
      split; [exists z; split; [exact Hz|lia]|]. eauto.
    + exfalso.
      destruct (targets_rejected targets graph_ilocs Hnacc)
        as [Hnone [Hit|(Hit & n & Hlen & Hne)]].
      * destruct (flow_not_iterable graph_ilocs targets batch_size name0 sym
                    shuffle seed self Hnone Hit) as [_ Hp].
        rewrite Hp in Hflow. discriminate.
      * destruct (flow_length_mismatch graph_ilocs targets batch_size name0
                    sym shuffle seed self n Hit Hlen Hne) as [_ Hp].
        rewrite Hp in Hflow. discriminate.
  - intros (-> & Hacc & Hbatch & sel & Hsel & ->).
    rewrite padded_flow_good_batch by assumption. rewrite Hsel. reflexivity.
Qed.

(** X8. [flow] returns a sequence exactly when the targets pass their
    checks and every index is a valid position, and, for the padded
    variant, the batch size is an integer of at least 1: it never returns
    a sequence built from a partial selection. *)
Theorem X8_flow_succeeds_iff (graph_ilocs : list Z)
    (targets batch_size : pyvalue) (name0 : option string) (sym shuffle : bool)
    (seed : option Z) (self : instance) :
  ((∃ seq, fst (GraphGenerator.flow graph_ilocs targets batch_size name0 self)
           = Ok seq)
   ↔ targets_accepted targets graph_ilocs
     ∧ Forall (valid_position (graphs self)) graph_ilocs)
  ∧ ((∃ seq, fst (PaddedGraphGenerator.flow graph_ilocs targets sym batch_size
                    name0 shuffle seed self) = Ok seq)
     ↔ targets_accepted targets graph_ilocs
       ∧ batch_size_accepted batch_size
       ∧ Forall (valid_position (graphs self)) graph_ilocs).
Proof.
  assert (Hvalid : ∀ sel,
    mapM (list_getitem (graphs self)) graph_ilocs = Ok sel →
    Forall (valid_position (graphs self)) graph_ilocs).
  { intros sel Hsel. apply mapM_getitem_Ok in Hsel.
    apply Forall_forall. intros i Hi.
    apply list_elem_of_lookup in Hi as [k Hk].
    destruct (Forall2_lookup_l _ _ _ _ _ Hsel Hk) as (x & _ & Hx).
    eapply list_getitem_Ok_valid, Hx. }
  split; split.
  - intros [seq Hseq].
    destruct (GraphGenerator.flow _ _ _ _ _) as [r s'] eqn:Hflow.
    simpl in Hseq. subst r.
    apply unpadded_flow_Ok in Hflow as (_ & Hacc & sel & Hsel & _). eauto.
  - intros [Hacc Hall].
    destruct (mapM_getitem_valid _ _ Hall) as (sel & Hsel & _).
    eexists. rewrite unpadded_flow_accepted by exact Hacc.
    rewrite Hsel. reflexivity.
  - intros [seq Hseq].
    destruct (PaddedGraphGenerator.flow _ _ _ _ _ _ _ _) as [r s'] eqn:Hflow.
    simpl in Hseq. subst r.
    apply padded_flow_Ok in Hflow as (_ & Hacc & Hb & sel & Hsel & _). eauto.
  - intros (Hacc & Hb & Hall).
    destruct (mapM_getitem_valid _ _ Hall) as (sel & Hsel & _).
    eexists. rewrite padded_flow_good_batch by assumption.
    rewrite Hsel. reflexivity.
Qed.

(** X9. A sequence returned by [flow] carries the arguments as they were
    given, and its targets, when there are any, are as many as its graphs,
    which are as many as the indices. *)
Theorem X9_flow_sequence_matches_arguments (graph_ilocs : list Z)
    (targets batch_size : pyvalue) (name0 : option string) (sym shuffle : bool)
    (seed : option Z) (self : instance) :
  (∀ seq self',
     GraphGenerator.flow graph_ilocs targets batch_size name0 self
     = (Ok seq, self') →
     gs_targets seq = targets ∧ gs_batch_size seq = batch_size
     ∧ gs_name seq = name0
     ∧ length (gs_graphs seq) = length graph_ilocs
     ∧ (targets = PyNone ∨ len targets = Ok (length (gs_graphs seq))))
  ∧ (∀ seq self',
       PaddedGraphGenerator.flow graph_ilocs targets sym batch_size name0
         shuffle seed self = (Ok seq, self') →
       pgs_targets seq = targets ∧ pgs_batch_size seq = batch_size
       ∧ pgs_name seq = name0 ∧ pgs_symmetric_normalization seq = sym
       ∧ pgs_shuffle seq = shuffle ∧ pgs_seed seq = seed
       ∧ length (pgs_graphs seq) = length graph_ilocs
       ∧ (targets = PyNone ∨ len targets = Ok (length (pgs_graphs seq)))).
Proof.
  split; intros seq self' Hflow.
  - apply unpadded_flow_Ok in Hflow as (_ & Hacc & sel & Hsel & ->). simpl.
    apply mapM_getitem_Ok, Forall2_length in Hsel.
    repeat (split; [reflexivity|]). split; [auto|].
    destruct Hacc as [?|[_ Hlen]]; [auto|right]. rewrite <- Hsel. exact Hlen.
  - apply padded_flow_Ok in Hflow as (_ & Hacc & _ & sel & Hsel & ->). simpl.
    apply mapM_getitem_Ok, Forall2_length in Hsel.
    repeat (split; [reflexivity|]). split; [auto|].
    destruct Hacc as [?|[_ Hlen]]; [auto|right]. rewrite <- Hsel. exact Hlen.
Qed.

(** X10. Every graph of a sequence returned by [flow] is one of the graphs
    of the generator. *)
Theorem X10_flow_selects_own_graphs (graph_ilocs : list Z)
    (targets batch_size : pyvalue) (name0 : option string) (sym shuffle : bool)
    (seed : option Z) (self : instance) :
  (∀ seq self',
     GraphGenerator.flow graph_ilocs targets batch_size name0 self
     = (Ok seq, self') →
     ∀ o, o ∈ gs_graphs seq → o ∈ graphs self)
  ∧ (∀ seq self',
       PaddedGraphGenerator.flow graph_ilocs targets sym batch_size name0
         shuffle seed self = (Ok seq, self') →
       ∀ o, o ∈ pgs_graphs seq → o ∈ graphs self).
Proof.
  assert (Helem : ∀ sel,
    mapM (list_getitem (graphs self)) graph_ilocs = Ok sel →
    ∀ o, o ∈ sel → o ∈ graphs self).
  { intros sel Hsel o Ho. apply mapM_getitem_Ok in Hsel.
    apply list_elem_of_lookup in Ho as [k Hk].
    destruct (Forall2_lookup_r _ _ _ _ _ Hsel Hk) as (i & _ & Hi).
    eapply list_getitem_Ok_elem, Hi. }
  split; intros seq self' Hflow.
  - apply unpadded_flow_Ok in Hflow as (_ & _ & sel & Hsel & ->).
    apply Helem, Hsel.
  - apply padded_flow_Ok in Hflow as (_ & _ & _ & sel & Hsel & ->).
    apply Helem, Hsel.
Qed.

Lemma X9_flow_sequence_matches_arguments_witness :
  ∃ seq, GraphGenerator.flow [1; 0] targets_1_0 (PyInt 7) (Some "train")
           generator_2x4 = (Ok seq, generator_2x4)
         ∧ gs_targets seq = targets_1_0 ∧ gs_batch_size seq = PyInt 7
         ∧ gs_name seq = Some "train"
         ∧ length (gs_graphs seq) = 2%nat
         ∧ (targets_1_0 = PyNone
            ∨ len targets_1_0 = Ok (length (gs_graphs seq))).
Proof.
  eexists. split; [vm_compute; reflexivity|].
  apply (X9_flow_sequence_matches_arguments [1; 0] targets_1_0 (PyInt 7)
           (Some "train") true false None generator_2x4)
    with (self' := generator_2x4).
  vm_compute. reflexivity.
Defined.

Lemma X10_flow_selects_own_graphs_witness :
  graph_b4 ∈ graphs generator_2x4.
Proof.
  apply (X10_flow_selects_own_graphs [1; -1] PyNone (PyInt 1) None true false
           None generator_2x4)
    with (seq := {| gs_graphs := [graph_b4; graph_b4]; gs_targets := PyNone;
                    gs_batch_size := PyInt 1; gs_name := None |})
         (self' := generator_2x4).
  - vm_compute. reflexivity.
  - simpl. apply list_elem_of_here.
Defined.

(** ** Selections compose *)

Lemma mapM_getitem_app {A : Type} (l : list A) (a b : list Z) :
  mapM (list_getitem l) (a ++ b)
  = sa ← mapM (list_getitem l) a;
    sb ← mapM (list_getitem l) b;
    mret (sa ++ sb).
Proof.
  induction a as [|i a IH]; simpl.
  - destruct (mapM (list_getitem l) b); reflexivity.
  - destruct (list_getitem l i) as [e|x]; simpl; [reflexivity|].
    rewrite IH.
    destruct (mapM (list_getitem l) a) as [e|sa]; simpl; [reflexivity|].
    destruct (mapM (list_getitem l) b) as [e|sb]; reflexivity.
Qed.

(** X11. Without targets, selecting by a concatenated index list gives the
    graphs selected by the first part followed by those selected by the
    second, and fails with the first part's error, or else the second's,
    when one of them fails. *)
Theorem X11_flow_concatenates (a b : list Z) (batch_size : pyvalue)
    (name0 : option string) (sym shuffle : bool) (seed : option Z)
    (self : instance) :
  fst (GraphGenerator.flow (a ++ b) PyNone batch_size name0 self)
  = match fst (GraphGenerator.flow a PyNone batch_size name0 self),
          fst (GraphGenerator.flow b PyNone batch_size name0 self) with
    | inl e, _ => Err e
    | inr _, inl e => Err e
    | inr sa, inr sb =>
        Ok {| gs_graphs := gs_graphs sa ++ gs_graphs sb;
              gs_targets := PyNone; gs_batch_size := batch_size;
              gs_name := name0 |}
    end
  ∧ fst (PaddedGraphGenerator.flow (a ++ b) PyNone sym batch_size name0
           shuffle seed self)
    = match fst (PaddedGraphGenerator.flow a PyNone sym batch_size name0
                   shuffle seed self),
            fst (PaddedGraphGenerator.flow b PyNone sym batch_size name0
                   shuffle seed self) with
      | inl e, _ => Err e
      | inr _, inl e => Err e
      | inr sa, inr sb =>
          Ok {| pgs_graphs := pgs_graphs sa ++ pgs_graphs sb;
                pgs_targets := PyNone;
                pgs_symmetric_normalization := sym;
                pgs_batch_size := batch_size; pgs_name := name0;
                pgs_shuffle := shuffle; pgs_seed := seed |}
      end.
Proof.
  split.
  - rewrite !unpadded_flow_accepted by (left; reflexivity). simpl.
    rewrite mapM_getitem_app.
    destruct (mapM (list_getitem (graphs self)) a) as [e|sa]; simpl;
      [reflexivity|].
    destruct (mapM (list_getitem (graphs self)) b) as [e|sb]; reflexivity.
  - rewrite !padded_flow_accepted by (left; reflexivity). simpl.
    destruct (int_value batch_size) as [z|]; [|reflexivity].
    destruct (z <=? 0); [reflexivity|].
    rewrite mapM_getitem_app.
    destruct (mapM (list_getitem (graphs self)) a) as [e|sa]; simpl;
      [reflexivity|].
    destruct (mapM (list_getitem (graphs self)) b) as [e|sb]; reflexivity.
Qed.

Lemma mapM_getitem_all_positions {A : Type} (pre l : list A) :
  mapM (list_getitem (pre ++ l)) (Z.of_nat <$> seq (length pre) (length l))
  = Ok l.
Proof.
  revert pre. induction l as [|x l IH]; intros pre; [reflexivity|].
  assert (Hx : list_getitem (pre ++ x :: l) (Z.of_nat (length pre)) = Ok x).
  { apply list_getitem_front; [lia|]. rewrite Nat2Z.id.
    apply list_lookup_middle. reflexivity. }
  specialize (IH (pre ++ [x])).
  rewrite <- app_assoc, length_app in IH. simpl in IH.
  rewrite Nat.add_1_r in IH.
  change (length (x :: l)) with (S (length l)).
  rewrite <- cons_seq, fmap_cons.
  change (mapM ?f (?i :: ?rest))
    with (f i ≫= λ y, mapM f rest ≫= λ k, mret (y :: k)).
  rewrite Hx. change (Ok x ≫= ?k) with (k x). cbv beta.
  rewrite IH. reflexivity.
Qed.

(** X12. Selecting every position in order, [range(len(self.graphs))],
    gives back the whole collection of the generator, in its order. *)
Theorem X12_flow_all_positions (targets batch_size : pyvalue)
    (name0 : option string) (sym shuffle : bool) (seed : option Z)
    (self : instance) :
  targets_accepted targets (all_positions (graphs self)) →
  GraphGenerator.flow (all_positions (graphs self)) targets batch_size name0
    self
  = (Ok {| gs_graphs := graphs self; gs_targets := targets;
           gs_batch_size := batch_size; gs_name := name0 |}, self)
  ∧ (batch_size_accepted batch_size →
     PaddedGraphGenerator.flow (all_positions (graphs self)) targets sym
       batch_size name0 shuffle seed self
     = (Ok {| pgs_graphs := graphs self; pgs_targets := targets;
              pgs_symmetric_normalization := sym;
              pgs_batch_size := batch_size; pgs_name := name0;
              pgs_shuffle := shuffle; pgs_seed := seed |}, self)).
Proof.
  intros Hacc.
  pose proof (mapM_getitem_all_positions [] (graphs self)) as Hall.
  simpl in Hall. fold (all_positions (graphs self)) in Hall.
  split.
  - rewrite unpadded_flow_accepted by exact Hacc. rewrite Hall. reflexivity.
  - intros Hbatch. rewrite padded_flow_good_batch by assumption.
    rewrite Hall. reflexivity.
Qed.

Lemma X12_flow_all_positions_witness :
  GraphGenerator.flow (all_positions (graphs generator_2x4)) targets_1_0
    (PyInt 1) None generator_2x4
  = (Ok {| gs_graphs := graphs generator_2x4; gs_targets := targets_1_0;
           gs_batch_size := PyInt 1; gs_name := None |}, generator_2x4)
  ∧ PaddedGraphGenerator.flow (all_positions (graphs generator_2x4))
      targets_1_0 true (PyInt 1) None false None generator_2x4
    = (Ok {| pgs_graphs := graphs generator_2x4; pgs_targets := targets_1_0;
             pgs_symmetric_normalization := true;
             pgs_batch_size := PyInt 1; pgs_name := None;
             pgs_shuffle := false; pgs_seed := None |}, generator_2x4).
Proof.
  destruct (X12_flow_all_positions targets_1_0 (PyInt 1) None true false None
              generator_2x4) as [Hu Hp].
  - right. split; reflexivity.
  - split; [exact Hu|]. apply Hp. exists 1. split; [reflexivity|lia].
Defined.

Lemma list_getitem_from_end {A : Type} (l : list A) (i : Z) :
  0 ≤ i < Z.of_nat (length l) →
  list_getitem l (i - Z.of_nat (length l)) = list_getitem l i.
Proof.
  intros Hi.
  destruct (list_getitem_valid l i) as [x Hx];
    [unfold valid_position; lia|].
  rewrite Hx. apply list_getitem_back; [lia|].
  apply list_getitem_front in Hx; [|lia].
  replace (Z.of_nat (length l) + (i - Z.of_nat (length l))) with i by lia.
  exact Hx.
Qed.

Lemma mapM_getitem_from_end {A : Type} (l : list A) (ilocs : list Z) :
  Forall (λ i, 0 ≤ i < Z.of_nat (length l)) ilocs →
  mapM (list_getitem l) ((λ i, i - Z.of_nat (length l)) <$> ilocs)
  = mapM (list_getitem l) ilocs.
Proof.
  induction 1 as [|i ilocs Hi _ IH]; [reflexivity|].
  rewrite fmap_cons.
  change (mapM ?f (?j :: ?rest))
    with (f j ≫= λ y, mapM f rest ≫= λ k, mret (y :: k)).
  rewrite (list_getitem_from_end l i Hi), IH. reflexivity.
Qed.

Lemma targets_accepted_length (targets : pyvalue) (a b : list Z) :
  length a = length b →
  targets_accepted targets a → targets_accepted targets b.
Proof. unfold targets_accepted. intros <-. auto. Qed.

(** X13. An index counted from the end selects the same graph as the
    index counted from the front: replacing every position [i] of
    [0 .. len(self.graphs) - 1] by [i - len(self.graphs)] changes nothing
    in what [flow] returns or raises. *)
Theorem X13_flow_negative_indices (graph_ilocs : list Z)
    (targets batch_size : pyvalue) (name0 : option string) (sym shuffle : bool)
    (seed : option Z) (self : instance) :
  Forall (λ i, 0 ≤ i < Z.of_nat (length (graphs self))) graph_ilocs →
  GraphGenerator.flow
    ((λ i, i - Z.of_nat (length (graphs self))) <$> graph_ilocs)
    targets batch_size name0 self
  = GraphGenerator.flow graph_ilocs targets batch_size name0 self
  ∧ PaddedGraphGenerator.flow
      ((λ i, i - Z.of_nat (length (graphs self))) <$> graph_ilocs)
      targets sym batch_size name0 shuffle seed self
    = PaddedGraphGenerator.flow graph_ilocs targets sym batch_size name0
        shuffle seed self.
Proof.
  intros Hfront.
  set (back := (λ i, i - Z.of_nat (length (graphs self))) <$> graph_ilocs).
  assert (Hlen : length back = length graph_ilocs)
    by (subst back; apply length_fmap).
  pose proof (mapM_getitem_from_end (graphs self) graph_ilocs Hfront) as Hsel.
  fold back in Hsel.
  destruct (targets_accepted_dec targets graph_ilocs) as [Hacc|Hnacc].
  - assert (Hacc' : targets_accepted targets back)
      by (eapply targets_accepted_length; [symmetry; exact Hlen|exact Hacc]).
    split.
    + rewrite !unpadded_flow_accepted by assumption. rewrite Hsel.
      reflexivity.
    + rewrite !padded_flow_accepted by assumption. rewrite Hsel.
      reflexivity.
  - destruct (targets_rejected targets graph_ilocs Hnacc)
      as [Hnone [Hit|(Hit & n & Hlen' & Hne)]].
    + destruct (flow_not_iterable back targets batch_size name0 sym shuffle
                  seed self Hnone Hit) as [-> ->].
      destruct (flow_not_iterable graph_ilocs targets batch_size name0 sym
                  shuffle seed self Hnone Hit) as [-> ->].
      split; reflexivity.
    + assert (Hne' : n ≠ length back) by (rewrite Hlen; exact Hne).
      destruct (flow_length_mismatch back targets batch_size name0 sym
                  shuffle seed self n Hit Hlen' Hne') as [-> ->].
      destruct (flow_length_mismatch graph_ilocs targets batch_size name0 sym
                  shuffle seed self n Hit Hlen' Hne) as [-> ->].
      split; reflexivity.
Qed.

Lemma X13_flow_negative_indices_witness :
  GraphGenerator.flow [-1; -2; -1] PyNone (PyInt 1) None generator_2x4
  = GraphGenerator.flow [1; 0; 1] PyNone (PyInt 1) None generator_2x4
  ∧ PaddedGraphGenerator.flow [-1; -2; -1] PyNone true (PyInt 1) None false
      None generator_2x4
    = PaddedGraphGenerator.flow [1; 0; 1] PyNone true (PyInt 1) None false
        None generator_2x4.
Proof.
  apply (X13_flow_negative_indices [1; 0; 1] PyNone (PyInt 1) None true false
           None generator_2x4).
  repeat constructor; simpl; lia.
Defined.

(** X14. With a batch size that is an integer of at least 1, the two
    [flow] methods agree: on the same arguments both raise the same error,
    or both return a sequence with the same graphs, targets, batch size
    and name. *)
Theorem X14_flows_agree (graph_ilocs : list Z) (targets batch_size : pyvalue)
    (name0 : option string) (sym shuffle : bool) (seed : option Z)
    (self : instance) :
  batch_size_accepted batch_size →
  fst (PaddedGraphGenerator.flow graph_ilocs targets sym batch_size name0
         shuffle seed self)
  = match fst (GraphGenerator.flow graph_ilocs targets batch_size name0 self)
    with
    | inl e => Err e
    | inr seq =>
        Ok {| pgs_graphs := gs_graphs seq; pgs_targets := gs_targets seq;
              pgs_symmetric_normalization := sym;
              pgs_batch_size := gs_batch_size seq; pgs_name := gs_name seq;
              pgs_shuffle := shuffle; pgs_seed := seed |}
    end.
Proof.
  intros Hbatch.
  destruct (targets_accepted_dec targets graph_ilocs) as [Hacc|Hnacc].
  - rewrite padded_flow_good_batch, unpadded_flow_accepted by assumption.
    simpl. destruct (mapM _ graph_ilocs); reflexivity.
  - destruct (targets_rejected targets graph_ilocs Hnacc)
      as [Hnone [Hit|(Hit & n & Hlen & Hne)]].
    + destruct (flow_not_iterable graph_ilocs targets batch_size name0 sym
                  shuffle seed self Hnone Hit) as [-> ->]. reflexivity.
    + destruct (flow_length_mismatch graph_ilocs targets batch_size name0 sym
                  shuffle seed self n Hit Hlen Hne) as [-> ->]. reflexivity.
Qed.

Lemma X14_flows_agree_witness :
  fst (PaddedGraphGenerator.flow [1; 5] targets_1_0 true (PyInt 2) None false
         None generator_2x4)
  = match fst (GraphGenerator.flow [1; 5] targets_1_0 (PyInt 2) None
                 generator_2x4)
    with
    | inl e => Err e
    | inr seq =>
        Ok {| pgs_graphs := gs_graphs seq; pgs_targets := gs_targets seq;
              pgs_symmetric_normalization := true;
              pgs_batch_size := gs_batch_size seq; pgs_name := gs_name seq;
              pgs_shuffle := false; pgs_seed := None |}
    end.
Proof.
  apply (X14_flows_agree [1; 5] targets_1_0 (PyInt 2) None true false None
           generator_2x4).
  exists 2. split; [reflexivity|lia].
Defined.

(** X15. What the constructor checked holds of everything [flow] hands
    out. Every graph in a sequence returned by a padded generator that was
    constructed has exactly one node type, passes the readiness check and
    has the recorded feature dimensionality; every element of a sequence
    returned by a constructed unpadded generator is a graph that passes
    the readiness check and has at most one node type. *)
Theorem X15_flow_delivers_checked_graphs (graphs0 : list pyobject)
    (name0 : option string) (self : instance) (graph_ilocs : list Z)
    (targets batch_size : pyvalue) (name1 : option string) (sym shuffle : bool)
    (seed : option Z) :
  (PaddedGraphGenerator.__init__ graphs0 name0 = Ok self →
   ∀ seq self',
     PaddedGraphGenerator.flow graph_ilocs targets sym batch_size name1
       shuffle seed self = (Ok seq, self') →
     ∀ o, o ∈ pgs_graphs seq →
          ∃ d, node_features_size self = Some d ∧ padded_accepts d o)
  ∧ (GraphGenerator.__init__ graphs0 name0 = Ok self →
     ∀ seq self',
       GraphGenerator.flow graph_ilocs targets batch_size name1 self
       = (Ok seq, self') →
       ∀ o, o ∈ gs_graphs seq → unpadded_accepts o).
Proof.
  assert (Helem : ∀ sel,
    mapM (list_getitem (graphs self)) graph_ilocs = Ok sel →
    ∀ o, o ∈ sel → o ∈ graphs self).
  { intros sel Hsel o Ho. apply mapM_getitem_Ok in Hsel.
    apply list_elem_of_lookup in Ho as [k Hk].
    destruct (Forall2_lookup_r _ _ _ _ _ Hsel Hk) as (i & _ & Hi).
    eapply list_getitem_Ok_elem, Hi. }
  split; intros Hinit seq self' Hflow o Ho.
  - apply padded_flow_Ok in Hflow as (_ & _ & _ & sel & Hsel & ->).
    simpl in Ho. pose proof (Helem sel Hsel o Ho) as Hin.
    apply padded_init_Ok in Hinit as (Hgraphs & _ & Hcases).
    rewrite Hgraphs in Hin.
    destruct Hcases as [[-> _]|(_ & d & Hd & Hall)].
    + apply elem_of_nil in Hin. contradiction.
    + exists d. split; [exact Hd|].
      rewrite Forall_forall in Hall. apply Hall, Hin.
  - apply unpadded_flow_Ok in Hflow as (_ & _ & sel & Hsel & ->).
    simpl in Ho. pose proof (Helem sel Hsel o Ho) as Hin.
    apply unpadded_init_Ok in Hinit as (g0 & rest & d & Heq & _ & Hall & ->).
    simpl in Hin. rewrite Forall_forall in Hall. apply Hall, Hin.
Qed.

Lemma X15_flow_delivers_checked_graphs_witness :
  (∀ o, o ∈ [graph_b4; graph_a4] →
        ∃ d, node_features_size generator_2x4 = Some d ∧ padded_accepts d o)
  ∧ (∀ o, o ∈ [graph_b4; graph_a4] → unpadded_accepts o).
Proof.
  destruct (X15_flow_delivers_checked_graphs [graph_a4; graph_b4] None
              generator_2x4 [1; 0] PyNone (PyInt 1) None true false None)
    as [Hp Hu].
  split.
  - apply (Hp ltac:(vm_compute; reflexivity)
              {| pgs_graphs := [graph_b4; graph_a4]; pgs_targets := PyNone;
                 pgs_symmetric_normalization := true;
                 pgs_batch_size := PyInt 1; pgs_name := None;
                 pgs_shuffle := false; pgs_seed := None |} generator_2x4).
    vm_compute. reflexivity.
  - apply (Hu ltac:(vm_compute; reflexivity)
              {| gs_graphs := [graph_b4; graph_a4]; gs_targets := PyNone;
                 gs_batch_size := PyInt 1; gs_name := None |} generator_2x4).
    vm_compute. reflexivity.
Defined.

(** ** Every error of [flow] has its cause *)


(** X17. The empty index list is accepted by every generator, with no
    targets or with an empty list of them (and, for the padded variant, a
    batch size that is an integer of at least 1), and gives a sequence
    without graphs; a generator without graphs accepts no other index
    list. *)
Theorem X17_flow_empty_edges (graph_ilocs : list Z)
    (targets batch_size : pyvalue) (name0 : option string) (self : instance) :
  (targets = PyNone ∨ targets = PyList [] →
   GraphGenerator.flow [] targets batch_size name0 self
   = (Ok {| gs_graphs := []; gs_targets := targets;
            gs_batch_size := batch_size; gs_name := name0 |}, self))
  ∧ (targets = PyNone ∨ targets = PyList [] →
     batch_size_accepted batch_size →
     ∀ sym shuffle seed,
       PaddedGraphGenerator.flow [] targets sym batch_size name0 shuffle seed
         self
       = (Ok {| pgs_graphs := []; pgs_targets := targets;
                pgs_symmetric_normalization := sym;
                pgs_batch_size := batch_size; pgs_name := name0;
                pgs_shuffle := shuffle; pgs_seed := seed |}, self))
  ∧ (graphs self = [] →
     (∃ seq, fst (GraphGenerator.flow graph_ilocs targets batch_size name0
                    self) = Ok seq) →
     graph_ilocs = [])
  ∧ (graphs self = [] →
     ∀ sym shuffle seed,
       (∃ seq, fst (PaddedGraphGenerator.flow graph_ilocs targets sym
                      batch_size name0 shuffle seed self) = Ok seq) →
       graph_ilocs = []).
Proof.
  assert (Hnone : graphs self = [] → ∀ sel,
    mapM (list_getitem (graphs self)) graph_ilocs = Ok sel →
    graph_ilocs = []).
  { intros Hempty sel Hsel. rewrite Hempty in Hsel.
    destruct graph_ilocs as [|i ilocs]; [reflexivity|].
    rewrite (mapM_getitem_out_of_range [] (i :: ilocs)) in Hsel;
      [discriminate|].
    left. unfold out_of_range. simpl. lia. }
  split; [|split; [|split]].
  - intros [->| ->]; reflexivity.
  - intros Htargets Hbatch sym shuffle seed.
    rewrite padded_flow_good_batch; [reflexivity| |exact Hbatch].
    destruct Htargets as [->| ->]; [left; reflexivity|].
    right. split; reflexivity.
  - intros Hempty [seq Hseq].
    destruct (GraphGenerator.flow _ _ _ _ _) as [r s'] eqn:Hflow.
    simpl in Hseq. subst r.
    apply unpadded_flow_Ok in Hflow as (_ & _ & sel & Hsel & _).
    eapply Hnone; eassumption.
  - intros Hempty sym shuffle seed [seq Hseq].
    destruct (PaddedGraphGenerator.flow _ _ _ _ _ _ _ _) as [r s'] eqn:Hflow.
    simpl in Hseq. subst r.
    apply padded_flow_Ok in Hflow as (_ & _ & _ & sel & Hsel & _).
    eapply Hnone; eassumption.
Qed.

Lemma X17_flow_empty_edges_witness :
  GraphGenerator.flow [] (PyList []) (PyInt 1) None generator_2x4
  = (Ok {| gs_graphs := []; gs_targets := PyList [];
           gs_batch_size := PyInt 1; gs_name := None |}, generator_2x4)
  ∧ PaddedGraphGenerator.flow [] (PyList []) true (PyInt 1) None false None
      generator_2x4
    = (Ok {| pgs_graphs := []; pgs_targets := PyList [];
             pgs_symmetric_normalization := true;
             pgs_batch_size := PyInt 1; pgs_name := None;
             pgs_shuffle := false; pgs_seed := None |}, generator_2x4)
  ∧ ([] : list Z) = [].
Proof.
  destruct (X17_flow_empty_edges [] (PyList []) (PyInt 1) None generator_2x4)
    as (Hempty & Hpadded & _).
  destruct (X17_flow_empty_edges [] PyNone (PyInt 1) None
              {| graphs := []; node_features_size := None; name := None |})
    as (_ & _ & Honly & _).
  split; [|split].
  - apply Hempty. right. reflexivity.
  - apply Hpadded; [right; reflexivity|].
    exists 1. split; [reflexivity|lia].
  - apply Honly; [reflexivity|]. eexists. vm_compute. reflexivity.
Defined.

(** X18. A boolean passes the integer test of the padded [flow]: with
    targets that pass their checks, [False] as batch size is rejected with
    a [ValueError], like 0, and [True] is taken like 1, the sequence
    carrying [True] itself as its batch size. *)
Theorem X18_padded_flow_boolean_batch_size (graph_ilocs : list Z)
    (targets : pyvalue) (name0 : option string) (sym shuffle : bool)
    (seed : option Z) (self : instance) :
  targets_accepted targets graph_ilocs →
  PaddedGraphGenerator.flow graph_ilocs targets sym (PyBool false) name0
    shuffle seed self = (Err ValueError, self)
  ∧ fst (PaddedGraphGenerator.flow graph_ilocs targets sym (PyBool true) name0
           shuffle seed self)
    = match fst (PaddedGraphGenerator.flow graph_ilocs targets sym (PyInt 1)
                   name0 shuffle seed self) with
      | inl e => Err e
      | inr seq =>
          Ok {| pgs_graphs := pgs_graphs seq;
                pgs_targets := pgs_targets seq;
                pgs_symmetric_normalization :=
                  pgs_symmetric_normalization seq;
                pgs_batch_size := PyBool true;
                pgs_name := pgs_name seq;
                pgs_shuffle := pgs_shuffle seq;
                pgs_seed := pgs_seed seq |}
      end.
Proof.
  intros Hacc. rewrite !padded_flow_accepted by exact Hacc. simpl.
  split; [reflexivity|].
  destruct (mapM _ graph_ilocs); reflexivity.
Qed.

Lemma X18_padded_flow_boolean_batch_size_witness :
  PaddedGraphGenerator.flow [0; 1] targets_1_0 true (PyBool false) None false
    None generator_2x4 = (Err ValueError, generator_2x4)
  ∧ fst (PaddedGraphGenerator.flow [0; 1] targets_1_0 true (PyBool true) None
           false None generator_2x4)
    = Ok {| pgs_graphs := [graph_a4; graph_b4]; pgs_targets := targets_1_0;
            pgs_symmetric_normalization := true;
            pgs_batch_size := PyBool true; pgs_name := None;
            pgs_shuffle := false; pgs_seed := None |}.
Proof.
  apply (X18_padded_flow_boolean_batch_size [0; 1] targets_1_0 None true false
           None generator_2x4).
  right. split; reflexivity.
Defined.
